(** * code-brick: the template registry, local storage, clean, save,
      export and import commands

    A shallow embedding of [src/commands/clean.ts] (which carries
    [cleanCommand], [saveCommand], [importCommand] and the helpers of
    [lib/utils]), of [src/commands/export.ts] and of
    [src/commands/init.ts], together with the properties the specification
    states about them and further properties of the code.

    Conventions of the embedding.
    - A JavaScript string is a [string]; its characters stand for code units.
      The content of a file is a [string] as well, of its bytes.
    - A directory that the commands walk themselves ([getFilesRecursive]) is
      a tree ([node]); a directory that is only handed to library calls
      ([fs.copy], [fs.remove], [archiver], [tar]) is a finite map from
      relative path to file content.
    - What the host provides (the regular expression engine, the JSON codec,
      fast-glob) is the interface [Host].
    - [lib/storage] is not part of the sources at hand: its functions are
      modelled from the specification and marked as such. *)

From Stdlib Require Import Ascii String.
From stdpp Require Import gmap strings list sorting.

#[local] Set Warnings "-register-all".

(* ================================================================== *)
(** * Definitions *)
(* ================================================================== *)

(** ** Strings *)

Definition LF : ascii := "010"%char.
Definition DQ : string := String "034"%char "".

(** [s.split(sep)] for a one-character separator. *)
Fixpoint split (sep : ascii) (s : string) : list string :=
  match s with
  | "" => [""]
  | String c s' =>
      if decide (c = sep) then "" :: split sep s'
      else match split sep s' with
           | l :: ls => String c l :: ls
           | [] => [String c ""]
           end
  end.

(** [ls.join(sep)]. *)
Fixpoint join (sep : string) (ls : list string) : string :=
  match ls with
  | [] => ""
  | [l] => l
  | l :: ls' => l +:+ sep +:+ join sep ls'
  end.

(** [s.replace(/\n{3,}/g, "\n\n")]: every maximal run of three or more line
    feeds becomes two. [n] counts the line feeds read just before [s]. *)
Fixpoint collapse_from (n : nat) (s : string) : string :=
  match s with
  | "" => ""
  | String c s' =>
      if decide (c = LF)
      then if decide (n < 2) then String c (collapse_from (S n) s')
           else collapse_from (S n) s'
      else String c (collapse_from 0 s')
  end.

Definition collapse_newlines (s : string) : string := collapse_from 0 s.

(** White space of [String.prototype.trim] among the first 256 code units. *)
Definition is_whitespace (c : ascii) : bool :=
  match c with
  | "009" | "010" | "011" | "012" | "013" | " " | "160" => true
  | _ => false
  end%char.

Fixpoint trimStart (s : string) : string :=
  match s with
  | String c s' => if is_whitespace c then trimStart s' else s
  | "" => ""
  end.

Definition trimEnd (s : string) : string :=
  String.rev (trimStart (String.rev s)).

Definition trim (s : string) : string := trimEnd (trimStart s).

Definition startsWith (s p : string) : bool := String.prefix p s.

(** [s.includes(sub)]. *)
Fixpoint includes (s sub : string) : bool :=
  String.prefix sub s ||
  match s with
  | "" => false
  | String _ s' => includes s' sub
  end.

Definition endsWith (s p : string) : bool :=
  String.prefix (String.rev p) (String.rev s).

(** A string is truthy when it is not empty. *)
Definition truthy (s : string) : bool := negb (bool_decide (s = "")).

(** [toLowerCase], on the letters A to Z. *)
Definition toLowerCase_char (c : ascii) : ascii :=
  let n := nat_of_ascii c in
  if (65 <=? n)%nat && (n <=? 90)%nat then ascii_of_nat (n + 32) else c.

Fixpoint toLowerCase (s : string) : string :=
  match s with
  | "" => ""
  | String c s' => String (toLowerCase_char c) (toLowerCase s')
  end.

(** The part of [s] from its last [c] on, when [c] occurs in [s]. *)
Fixpoint from_last (c : ascii) (s : string) : option string :=
  match s with
  | "" => None
  | String d s' =>
      match from_last c s' with
      | Some r => Some r
      | None => if decide (d = c) then Some s else None
      end
  end.

(** [path.basename] of a relative POSIX path without a trailing slash. *)
Definition basename (p : string) : string :=
  match from_last "/" p with
  | Some (String _ b) => b
  | _ => p
  end.

(** [path.extname]: from the last dot of the base name on; empty when there
    is no dot, when the only dot leads the base name, and for [".."]. *)
Definition extname (p : string) : string :=
  let b := basename p in
  if decide (b = "..") then ""
  else match from_last "." b with
       | Some e => if decide (e = b) then "" else e
       | None => ""
       end.

(** [s.split(",").map(p => p.trim())]. *)
Definition split_trim (s : string) : list string := trim <$> split "," s.

(** [[...new Set(l)]]: the first occurrence of every element, in order. *)
Fixpoint dedupe (seen l : list string) : list string :=
  match l with
  | [] => []
  | x :: l' =>
      if decide (x ∈ seen) then dedupe seen l'
      else x :: dedupe (x :: seen) l'
  end.

(** ** Data model *)

(** A directory as the commands walk it: [fs.readdir] gives the entries of a
    directory in the order of the list. *)
Inductive node :=
  | File (content : string)
  | Dir (entries : list (string * node)).

(** A directory handed to library calls: relative path to content. *)
Abbreviation dir := (gmap string string).

Module BrickMetadata.
Record Source := { origin : string; path : string }.
Record t := {
  name : string;
  type : string;
  version : string;
  description : string;
  createdAt : string;
  updatedAt : string;
  source : Source;
  files : list string;
  tags : list string;
  dependencies : option (list (string * string));
  devDependencies : option (list (string * string));
}.
Definition with_updatedAt (u : string) (m : t) : t :=
  {| name := name m; type := type m; version := version m;
     description := description m; createdAt := createdAt m;
     updatedAt := u; source := source m; files := files m;
     tags := tags m; dependencies := dependencies m;
     devDependencies := devDependencies m |}.
End BrickMetadata.

Module LocalTemplate.
Record t := {
  path : string;
  description : string;
  tags : list string;
  createdAt : string;
  updatedAt : string;
}.
End LocalTemplate.

Module RemoteTemplate.
Record t := {
  owner : string;
  repo : string;
  path : string;
  ref : string;
  commit : option string;
  description : string;
  tags : list string;
  createdAt : string;
  updatedAt : string;
}.
End RemoteTemplate.

(** A registry entry; the constructor is the [type] field. *)
Inductive Template :=
  | local (t : LocalTemplate.t)
  | remote (t : RemoteTemplate.t).

(** ** The host *)

Class Host := {
  (** [new RegExp(source, flags)], as the predicate [test] computes from
      [lastIndex = 0]; [None] when the constructor throws. *)
  RegExp : string → string → option (string → bool);
  (** The first group of every match of [source] in the input, from left
      to right (the [exec] loop of a global expression; [match] of an
      expression that is not global sees the first of them). *)
  RegExp_captures : string → string → string → list string;
  (** [JSON.stringify] and [JSON.parse] at the type of the metadata. *)
  JSON_stringify : BrickMetadata.t → string;
  JSON_parse : string → option BrickMetadata.t;
  (** [JSON.parse(content).name] when it is a truthy string. *)
  JSON_parse_name : string → option string;
  (** [fast-glob]: patterns, ignored patterns, the entries of [cwd]; the
      paths of the files that match, in the order in which it finds them. *)
  fg : list string → list string → list (string * node) → list string;
  (** [os.homedir()]. *)
  homedir : string;
  (** What [JSON.stringify] writes of a metadata record, [JSON.parse]
      reads back. *)
  JSON_parse_stringify : ∀ m, JSON_parse (JSON_stringify m) = Some m;
}.

(** A regular expression literal. *)
Definition literal `{Host} (source flags : string) : option (string → bool) :=
  RegExp source flags.

(** ** clean: the tables *)

Definition Q : string := "['" +:+ DQ +:+ "]".
Definition NQ : string := "[^'" +:+ DQ +:+ "]".

Definition ts_patterns : list string :=
  [ "^import\s+.*from\s+" +:+ Q +:+ "\.\.?\/" +:+ NQ +:+ "+" +:+ Q +:+ "\s*;?\s*$";
    "^import\s+" +:+ Q +:+ "\.\.?\/" +:+ NQ +:+ "+" +:+ Q +:+ "\s*;?\s*$";
    "^export\s+.*from\s+" +:+ Q +:+ "\.\.?\/" +:+ NQ +:+ "+" +:+ Q +:+ "\s*;?\s*$" ].

(** The sources of the expressions of [LOCAL_IMPORT_PATTERNS]; all of them
    carry the flags [gm]. *)
Definition LOCAL_IMPORT_PATTERNS (ext : string) : option (list string) :=
  if decide (ext = ".dart") then Some
    [ "^import\s+" +:+ Q +:+ "package:[^\/]+\/" +:+ NQ +:+ "+" +:+ Q +:+ "\s*;?\s*$";
      "^export\s+" +:+ Q +:+ "package:[^\/]+\/" +:+ NQ +:+ "+" +:+ Q +:+ "\s*;?\s*$" ]
  else if decide (ext = ".ts") then Some ts_patterns
  else if decide (ext = ".tsx") then Some ts_patterns
  else if decide (ext = ".js") then Some
    (ts_patterns ++
     [ "^const\s+\w+\s*=\s*require\s*\(\s*" +:+ Q +:+ "\.\.?\/" +:+ NQ +:+ "+"
         +:+ Q +:+ "\s*\)\s*;?\s*$" ])
  else if decide (ext = ".jsx") then Some ts_patterns
  else if decide (ext = ".py") then Some
    [ "^from\s+\.\S*\s+import\s+.*$"; "^import\s+\.\S+.*$" ]
  else if decide (ext = ".go") then Some []
  else if decide (ext = ".rs") then Some
    [ "^use\s+crate::.*;\s*$"; "^use\s+super::.*;\s*$" ]
  else if decide (ext = ".swift") then Some []
  else if decide (ext = ".kt") then Some []
  else None.

Definition EXTERNAL_PREFIXES (ext : string) : option (list string) :=
  if decide (ext = ".dart") then Some
    [ "package:flutter/"; "package:flutter_"; "package:dart:";
      "package:go_router/"; "package:dio/"; "package:http/";
      "package:provider/"; "package:bloc/"; "package:flutter_bloc/";
      "package:get/"; "package:riverpod/"; "package:hooks_riverpod/";
      "package:freezed_annotation/"; "package:json_annotation/";
      "package:equatable/"; "package:dartz/"; "package:injectable/";
      "package:get_it/"; "package:shared_preferences/";
      "package:path_provider/"; "package:sqflite/"; "package:hive/";
      "package:firebase_"; "package:cloud_firestore/"; "package:intl/";
      "package:cached_network_image/"; "package:image_picker/";
      "package:url_launcher/"; "package:connectivity";
      "package:permission_handler/"; "package:auto_route/";
      "package:mockito/"; "package:test/"; "package:flutter_test/" ]
  else None.

Definition isExternalImport (line ext : string) : bool :=
  let prefixes := default [] (EXTERNAL_PREFIXES ext) in
  existsb (λ prefix, includes line prefix) prefixes.

(** ** clean: [cleanFileContent] *)

Record CleanResult := { cleaned : string; removedCount : nat }.

Section clean_line.
Context `{Host}.
Variables (ext : string) (customPattern projectName : option string)
          (keepExternal : bool).

(** The custom pattern, when one is given and it is not empty. *)
Definition custom_removes (line : string) : option bool :=
  match customPattern with
  | Some pat =>
      if truthy pat then regex ← RegExp pat ""; Some ((regex : string → bool) line)
      else Some false
  | None => Some false
  end.

(** The imports of the project itself, for Dart. *)
Definition project_removes (line : string) : option bool :=
  match projectName with
  | Some pn =>
      if bool_decide (ext = ".dart") && truthy pn then
        projectImportPattern ←
          RegExp ("^(import|export)\s+" +:+ Q +:+ "package:" +:+ pn +:+ "/") "";
        Some ((projectImportPattern : string → bool) (trim line) &&
              negb (keepExternal && isExternalImport line ext))
      else Some false
  | None => Some false
  end.

(** The loop over the built-in patterns: the first that matches decides. *)
Fixpoint builtin_removes (patterns : list string) (line : string)
  : option bool :=
  match patterns with
  | [] => Some false
  | src :: rest =>
      pattern ← literal src "gm";
      if (pattern : string → bool) (trim line)
      then Some (negb (keepExternal && isExternalImport line ext))
      else builtin_removes rest line
  end.

(** The value of [shouldRemove] at the end of the body of the loop;
    [None] when the body throws. *)
Definition shouldRemove (line : string) : option bool :=
  c ← custom_removes line;
  if c : bool then Some true
  else p ← project_removes line;
       if p : bool then Some true
       else builtin_removes (default [] (LOCAL_IMPORT_PATTERNS ext)) line.

(** The loop over the lines: the lines kept and the number removed. *)
Fixpoint clean_lines (lines : list string) : option (list string * nat) :=
  match lines with
  | [] => Some ([], 0)
  | line :: rest =>
      r ← shouldRemove line;
      '(kept, n) ← clean_lines rest;
      Some (if r : bool then (kept, S n) else (line :: kept, n))
  end.

Definition cleanFileContent (content : string) : option CleanResult :=
  '(cleanedLines, n) ← clean_lines (split LF content);
  Some {| cleaned := collapse_newlines (join (String LF "") cleanedLines);
          removedCount := n |}.
End clean_line.

(** ** The persisted state and the command monad *)

(** Everything below the root directory [~/.codebrick]: [store.json] with
    its templates in insertion order, and the directories
    [templates/<name>/], each with its [brick.json] and the files of the
    template. A template name is one path segment: the map of the
    directories is exact where every name is a segment ([is_segment],
    [flat_storage]), each with a directory of its own. A name that is
    empty, [.] or [..], or that holds a slash, is a path into or above the
    directory of another name; what lies there is not shown by the map, and
    the statements that speak of the directories assume segments. *)
Record State := {
  initialized : bool;
  store : list (string * Template);
  templates : gmap string dir;
}.

Definition with_store (s : list (string * Template)) (st : State) : State :=
  {| initialized := initialized st; store := s; templates := templates st |}.

Definition with_templates (t : gmap string dir) (st : State) : State :=
  {| initialized := initialized st; store := store st; templates := t |}.

(** How a command ends: it returns, it calls [process.exit] after a
    message, or an exception escapes it. *)
Inductive outcome :=
  | returned
  | exit (code : nat) (message : string)
  | thrown.

(** A command reads and writes the state and may stop early. *)
Definition cmd (A : Type) : Type := State → (outcome + A) * State.

Global Instance cmd_ret : MRet cmd := λ A a st, (inr a, st).
Global Instance cmd_bind : MBind cmd := λ A B f m st,
  match m st with
  | (inr a, st') => f a st'
  | (inl o, st') => (inl o, st')
  end.

Definition stop {A} (o : outcome) : cmd A := λ st, (inl o, st).
Definition gets {A} (f : State → A) : cmd A := λ st, (inr (f st), st).
Definition modify (f : State → State) : cmd () := λ st, (inr (), f st).
Definition when (b : bool) (c : cmd ()) : cmd () := if b then c else mret ().

(** Running a command to its end. *)
Definition run {A} (c : cmd A) (st : State) : outcome * State :=
  match c st with
  | (inl o, st') => (o, st')
  | (inr _, st') => (returned, st')
  end.

(** An answer of an interactive prompt; [cancel] is the symbol that
    [p.isCancel] recognises. *)
Inductive answer (A : Type) :=
  | cancel
  | value (a : A).
Arguments cancel {A}.
Arguments value {A} a.

(** ** lib/storage *)

Section storage.
Context `{Host}.

(** Modelled from the spec: [lib/storage] is not among the sources; the
    root directory is [~/.codebrick] (README, "Storage Location"). *)
Definition CODEBRICK_DIR : string := homedir +:+ "/.codebrick".
Definition TEMPLATES_DIR : string := CODEBRICK_DIR +:+ "/templates".

(** Modelled from the spec: [templates/<name>/] below the root (§6). *)
Definition getTemplatePath (name : string) : string :=
  TEMPLATES_DIR +:+ "/" +:+ name.

(** Modelled from the spec: whether [brick init] has run. *)
Definition isInitialized : cmd bool := gets initialized.

Fixpoint store_get (name : string) (s : list (string * Template))
  : option Template :=
  match s with
  | [] => None
  | (k, v) :: s' => if decide (k = name) then Some v else store_get name s'
  end.

(** An assignment to a key of a JavaScript object: in place when the key
    is there, at the end otherwise. *)
Fixpoint store_put (name : string) (v : Template)
    (s : list (string * Template)) : list (string * Template) :=
  match s with
  | [] => [(name, v)]
  | (k, w) :: s' =>
      if decide (k = name) then (k, v) :: s'
      else (k, w) :: store_put name v s'
  end.

(** Modelled from the spec: [get(name) -> Entry?] of the Registry (§4.1). *)
Definition getTemplate (name : string) : cmd (option Template) :=
  gets (λ st, store_get name (store st)).

(** Modelled from the spec: the Registry is the single source of truth
    for the uniqueness of names (§3). *)
Definition templateExists (name : string) : cmd bool :=
  gets (λ st, bool_decide (is_Some (store_get name (store st)))).

(** Modelled from the spec: [put(name, Entry)] of the Registry (§4.1). *)
Definition addTemplateToStore (name : string) (t : Template) : cmd () :=
  modify (λ st, with_store (store_put name t (store st)) st).

(** The metadata that [templates/<name>/brick.json] holds in a state. *)
Definition metadata_of (st : State) (name : string)
  : option BrickMetadata.t :=
  d ← templates st !! name; c ← d !! "brick.json"; JSON_parse c.

(** Modelled from the spec: [load(name) -> Metadata?], absent when the
    file [brick.json] is missing or cannot be parsed (§4.2). *)
Definition loadTemplateMetadata (name : string)
  : cmd (option BrickMetadata.t) :=
  gets (λ st, metadata_of st name).

(** Modelled from the spec: [save(name, Metadata)] overwrites
    [templates/<name>/brick.json] (§4.2, §6). *)
Definition saveTemplateMetadata (name : string) (m : BrickMetadata.t)
  : cmd () :=
  modify (λ st,
    with_templates
      (<[name := <["brick.json" := JSON_stringify m]>
                   (default ∅ (templates st !! name))]> (templates st)) st).

Definition digit (c : ascii) : option nat :=
  let n := nat_of_ascii c in
  if (48 <=? n)%nat && (n <=? 57)%nat then Some (n - 48) else None.

Fixpoint parse_digits (acc : nat) (s : string) : option nat :=
  match s with
  | "" => Some acc
  | String c s' => d ← digit c; parse_digits (10 * acc + d) s'
  end.

(** The name that a name or a 1-based index stands for in a registry. *)
Definition resolve_in (s : list (string * Template)) (nameOrIndex : string)
  : option string :=
  let by_name :=
    if bool_decide (is_Some (store_get nameOrIndex s))
    then Some nameOrIndex else None in
  match (if truthy nameOrIndex then parse_digits 0 nameOrIndex else None) with
  | Some (S i) =>
      match s !! i with
      | Some (k, _) => Some k
      | None => by_name
      end
  | _ => by_name
  end.

(** Modelled from the spec: a 1-based index into the listing when the
    input parses as a positive integer within range, the name itself
    otherwise, which then has to be in the Registry (§4.1). *)
Definition resolveTemplateName (nameOrIndex : string)
  : cmd (option string) :=
  gets (λ st, resolve_in (store st) nameOrIndex).

(** The file system calls on the storage directories. *)
Definition fs_pathExists (name : string) : cmd bool :=
  gets (λ st, bool_decide (is_Some (templates st !! name))).

Definition fs_remove (name : string) : cmd () :=
  modify (λ st, with_templates (delete name (templates st)) st).

Definition fs_ensureDir (name : string) : cmd () :=
  modify (λ st,
    with_templates
      (<[name := default ∅ (templates st !! name)]> (templates st)) st).

(** [fs.writeFile] and the copy of one file to [templates/<name>/<path>]. *)
Definition fs_writeFile (name path content : string) : cmd () :=
  modify (λ st,
    with_templates
      (<[name := <[path := content]> (default ∅ (templates st !! name))]>
         (templates st)) st).

Definition fs_readFile (name path : string) : cmd (option string) :=
  gets (λ st, d ← templates st !! name; d !! path).
End storage.

(** ** lib/utils *)

(** [path.relative(baseDir, path.join(dir, name))] for [dir] at the relative
    path [rel] below [baseDir]. *)
Definition relative_join (rel name : string) : string :=
  if decide (rel = "") then name else rel +:+ "/" +:+ name.

(** [files.sort()]: the default order of JavaScript, by code units. *)
Definition sort (l : list string) : list string := merge_sort String.le l.

(** The body of the loop of [getFilesRecursive] for the entry [name] with
    the relative path [relativePath]: what it pushes to [files]. *)
Fixpoint getFilesRecursive_entry (relativePath name : string) (n : node)
  : list string :=
  match n with
  | Dir entries =>
      if startsWith name "." || bool_decide (name = "node_modules")
         || bool_decide (name = "__pycache__")
      then []
      else sort (flat_map
                   (λ e, getFilesRecursive_entry
                           (relative_join relativePath e.1) e.1 e.2)
                   entries)
  | File _ =>
      if negb (startsWith name ".") && negb (bool_decide (name = "brick.json"))
      then [relativePath]
      else []
  end.

Definition getFilesRecursive (entries : list (string * node)) : list string :=
  sort (flat_map (λ e, getFilesRecursive_entry e.1 e.1 e.2) entries).

(** The package of an import specifier: its first segment, or the first two
    for a scoped package. *)
Definition package_of (specifier : string) : option string :=
  let parts := split "/" specifier in
  let pkg := default "" (head parts) in
  if negb (startsWith pkg "@") then Some pkg
  else match parts with
       | p0 :: p1 :: _ => Some (p0 +:+ "/" +:+ p1)
       | _ => None
       end.

Definition detectDependencies `{Host} (content filename : string)
  : list string :=
  let js :=
    if endsWith filename ".ts" || endsWith filename ".tsx"
       || endsWith filename ".js" || endsWith filename ".jsx"
    then
      omap package_of
        (RegExp_captures
           ("import\s+.*?\s+from\s+" +:+ Q +:+ "([^'" +:+ DQ +:+ "./]" +:+ NQ
              +:+ "*)" +:+ Q) "g" content) ++
      omap package_of
        (RegExp_captures
           ("require\s*\(\s*" +:+ Q +:+ "([^'" +:+ DQ +:+ "./]" +:+ NQ +:+ "*)"
              +:+ Q +:+ "\s*\)") "g" content)
    else [] in
  let py :=
    if endsWith filename ".py"
    then filter (λ pkg, pkg ∉ ["os"; "sys"; "json"; "re"; "typing"; "dataclasses"])
           (RegExp_captures "^(?:from|import)\s+(\w+)" "gm" content)
    else [] in
  dedupe [] (js ++ py).

(** ** The source directory of [save] *)

Fixpoint entry_get (name : string) (entries : list (string * node))
  : option node :=
  match entries with
  | [] => None
  | (k, n) :: rest => if decide (k = name) then Some n else entry_get name rest
  end.

Fixpoint node_at (segments : list string) (n : node) : option node :=
  match segments with
  | [] => Some n
  | s :: rest =>
      match n with
      | Dir entries => c ← entry_get s entries; node_at rest c
      | File _ => None
      end
  end.

(** The content of the file at a relative path below a directory. *)
Definition read_source (entries : list (string * node)) (path : string)
  : option string :=
  match node_at (split "/" path) (Dir entries) with
  | Some (File content) => Some content
  | _ => None
  end.

(** ** clean: [detectProjectName] and [cleanCommand] *)

Record CleanOptions := {
  pattern : option string;
  dryRun : bool;
  keepExternal : option bool;
}.

(** The part of [s] after its first [c]. *)
Fixpoint after_first (c : ascii) (s : string) : option string :=
  match s with
  | "" => None
  | String d s' => if decide (d = c) then Some s' else after_first c s'
  end.

(** [name.replace(/^@[^/]+\//, "")]. *)
Definition strip_scope (name : string) : string :=
  match name with
  | String "@" (String c rest) =>
      if decide (c = "/"%char) then name
      else default name (after_first "/" rest)
  | _ => name
  end.

Definition detectProjectName `{Host} (templateDir : dir) : option string :=
  let pubspec :=
    content ← templateDir !! "pubspec.yaml";
    head (RegExp_captures "^name:\s*(\S+)" "m" content) in
  let packageJson :=
    content ← templateDir !! "package.json";
    strip_scope <$> JSON_parse_name content in
  let pyproject :=
    content ← templateDir !! "pyproject.toml";
    head (RegExp_captures
            ("name\s*=\s*[" +:+ DQ +:+ "']([^" +:+ DQ +:+ "']+)[" +:+ DQ +:+ "']")
            "" content) in
  match pubspec with
  | Some n => Some n
  | None => match packageJson with
            | Some n => Some n
            | None => pyproject
            end
  end.

Section cleanCommand.
Context `{Host}.

(** The first loop of [cleanCommand]: the files in which something is to
    be removed, with their extension and the number of removals. An entry
    of the manifest is looked up as it is written; for a normalised
    relative path ([normal_path]) that is the file which
    [path.join(templatePath, file)] names. *)
Fixpoint analyze (options : CleanOptions) (projectName : option string)
    (templateDir : dir) (files : list string)
  : list (string * string * nat) :=
  match files with
  | [] => []
  | file :: rest =>
      let ext := toLowerCase (extname file) in
      let others := analyze options projectName templateDir rest in
      if negb (bool_decide (is_Some (LOCAL_IMPORT_PATTERNS ext)))
         && negb (from_option truthy false (pattern options))
      then others
      else
        match
          content ← templateDir !! file;
          cleanFileContent ext (pattern options) projectName
            (negb (bool_decide (keepExternal options = Some false))) content
        with
        | Some r =>
            if (0 <? removedCount r)%nat
            then (file, ext, removedCount r) :: others
            else others
        | None => others
        end
  end.

(** The second loop: every file is read again, cleaned and written, at
    the entry of the manifest as it is written (see [analyze]). *)
Fixpoint rewrite_files (name : string) (options : CleanOptions)
    (projectName : option string) (filesToClean : list (string * string * nat))
  : cmd () :=
  match filesToClean with
  | [] => mret ()
  | (file, ext, _) :: rest =>
      content ← fs_readFile name file;
      match
        c ← content;
        cleanFileContent ext (pattern options) projectName
          (negb (bool_decide (keepExternal options = Some false))) c
      with
      | Some r => fs_writeFile name file (cleaned r)
      | None => mret ()
      end;;
      rewrite_files name options projectName rest
  end.

Definition cleanCommand (nameOrIndex : string) (options : CleanOptions)
    (confirmed : answer bool) (now : string) : cmd () :=
  init ← isInitialized;
  if negb init then stop (exit 1 "CodeBrick is not initialized.") else
  resolved ← resolveTemplateName nameOrIndex;
  match resolved with
  | None => stop (exit 1 "Template not found.")
  | Some name =>
  template ← getTemplate name;
  match template with
  | None => stop (exit 1 "Template not found.")
  | Some (remote _) => stop (exit 1 "Cannot clean remote templates.")
  | Some (local _) =>
  loaded ← loadTemplateMetadata name;
  match loaded with
  | None => stop (exit 1 "Failed to load template metadata.")
  | Some metadata =>
  templateDir ← gets (λ st, default ∅ (templates st !! name));
  let projectName := detectProjectName templateDir in
  let filesToClean :=
    analyze options projectName templateDir (BrickMetadata.files metadata) in
  if bool_decide (filesToClean = []) then mret ()
  else if dryRun options then mret ()
  else
    match confirmed with
    | value true =>
        rewrite_files name options projectName filesToClean;;
        saveTemplateMetadata name
          (BrickMetadata.with_updatedAt now metadata)
    | _ => stop (exit 0 "Operation cancelled")
    end
  end end end.
End cleanCommand.

(** ** save *)

Record SaveOptions := {
  save_description : option string;
  save_tags : option string;
  include : option string;
  exclude : option string;
  detectDeps : bool;
}.

Record SavePrompts := {
  save_shouldOverwrite : answer bool;
  addDeps : answer bool;
  descInput : answer string;
}.

Section saveCommand.
Context `{Host}.

(** The files to include: by the glob patterns of [--include], or all
    files of the directory but those that [--exclude] matches. *)
Definition select_files (options : SaveOptions)
    (entries : list (string * node)) : list string :=
  if from_option truthy false (include options) then
    fg (split_trim (default "" (include options)))
       (from_option split_trim [] (exclude options)) entries
  else if from_option truthy false (exclude options) then
    filter (λ f, f ∉ fg (split_trim (default "" (exclude options))) [] entries)
      (getFilesRecursive entries)
  else getFilesRecursive entries.

(** The dependencies that the loop over the files collects, without
    duplicates; a file that cannot be read is skipped. *)
Definition detect_all (entries : list (string * node)) (files : list string)
  : list string :=
  dedupe []
    (flat_map
       (λ file, match read_source entries file with
                | Some content => detectDependencies content file
                | None => []
                end) files).

(** The loop that copies the files; [fs.copy] throws for a path that is
    not a file of the source. *)
Fixpoint copy_files (name : string) (entries : list (string * node))
    (files : list string) : cmd () :=
  match files with
  | [] => mret ()
  | file :: rest =>
      match read_source entries file with
      | Some content =>
          fs_writeFile name file content;;
          copy_files name entries rest
      | None => stop thrown
      end
  end.

(** The dependencies to record: those detected, when [--detect-deps] is
    given, some are found and the user agrees. *)
Definition ask_dependencies (options : SaveOptions) (prompts : SavePrompts)
    (entries : list (string * node)) (files : list string)
  : cmd (list string) :=
  if detectDeps options then
    let detected := detect_all entries files in
    if bool_decide (detected = []) then mret []
    else match addDeps prompts with
         | cancel => stop (exit 0 "Operation cancelled")
         | value true => mret detected
         | value false => mret []
         end
  else mret [].

(** The description: the option when it is not empty, the answer to the
    prompt otherwise. *)
Definition ask_description (options : SaveOptions) (prompts : SavePrompts)
  : cmd string :=
  if from_option truthy false (save_description options)
  then mret (default "" (save_description options))
  else match descInput prompts with
       | cancel => stop (exit 0 "Operation cancelled")
       | value d => mret d
       end.

(** [options.tags.split(",").map(t => t.trim()).filter(Boolean)]. *)
Definition parse_tags (options : SaveOptions) : list string :=
  match save_tags options with
  | Some t => if truthy t then filter (λ t, truthy t) (split_trim t) else []
  | None => []
  end.

Definition new_metadata (name resolvedPath description : string)
    (files tags detectedDeps : list string) (now : string)
  : BrickMetadata.t :=
  {| BrickMetadata.name := name;
     BrickMetadata.type := "local";
     BrickMetadata.version := "1.0.0";
     BrickMetadata.description := description;
     BrickMetadata.createdAt := now;
     BrickMetadata.updatedAt := now;
     BrickMetadata.source :=
       {| BrickMetadata.origin := "local";
          BrickMetadata.path := resolvedPath |};
     BrickMetadata.files := files;
     BrickMetadata.tags := tags;
     BrickMetadata.dependencies :=
       if bool_decide (detectedDeps = []) then None
       else Some ((λ dep, (dep, "*")) <$> detectedDeps);
     BrickMetadata.devDependencies := None |}.

Definition new_template (name description : string) (tags : list string)
    (now : string) : Template :=
  local {| LocalTemplate.path := "templates/" +:+ name;
           LocalTemplate.description := description;
           LocalTemplate.tags := tags;
           LocalTemplate.createdAt := now;
           LocalTemplate.updatedAt := now |}.

Definition saveCommand (name : string) (source : option node)
    (resolvedPath : string) (options : SaveOptions) (prompts : SavePrompts)
    (now : string) : cmd () :=
  init ← isInitialized;
  if negb init then stop (exit 1 "CodeBrick is not initialized.") else
  match source with
  | None => stop (exit 1 "Path does not exist")
  | Some (File _) => stop (exit 1 "Source path must be a directory")
  | Some (Dir entries) =>
  existing ← templateExists name;
  (if existing : bool then
     match save_shouldOverwrite prompts with
     | value true => fs_remove name
     | _ => stop (exit 0 "Operation cancelled")
     end
   else mret ());;
  let files := select_files options entries in
  if bool_decide (files = [])
  then stop (exit 1 "No files found in the specified path") else
  detectedDeps ← ask_dependencies options prompts entries files;
  description ← ask_description options prompts;
  let tags := parse_tags options in
  fs_ensureDir name;;
  copy_files name entries files;;
  saveTemplateMetadata name
    (new_metadata name resolvedPath description files tags detectedDeps now);;
  addTemplateToStore name (new_template name description tags now)
  end.
End saveCommand.

(** ** export *)

(** An archive: its entries for files, name and content, in the order of
    the archive. The entries for directories carry no content and are left
    out, so every directory of an archive is one that holds a file; the
    compression is the codec's. *)
Abbreviation archive := (list (string * string)).

Section exportCommand.
Context `{Host}.

(** [archive.directory(templatePath, "template", filter)] followed by
    [archive.append(metadataBuffer, { name: "brick.json" })]. The filter
    drops the entry whose name, relative to the directory, is
    [brick.json]. *)
Definition createBrickArchive (templateDir : dir)
    (metadata : BrickMetadata.t) : archive :=
  ((λ e, ("template/" +:+ e.1, e.2)) <$>
     filter (λ e, e.1 ≠ "brick.json") (map_to_list templateDir))
  ++ [("brick.json", JSON_stringify metadata)].

(** The command; its result is the archive that it writes to the output
    path. The output path is taken to lie outside the storage: the file
    written there is not part of the state. *)
Definition exportCommand (templateNameOrIndex : string) : cmd archive :=
  init ← isInitialized;
  if negb init then stop (exit 1 "CodeBrick is not initialized.") else
  resolved ← resolveTemplateName templateNameOrIndex;
  match resolved with
  | None => stop (exit 1 "Template not found")
  | Some templateName =>
  template ← getTemplate templateName;
  match template with
  | None => stop (exit 1 "Template not found")
  | Some (remote _) => stop (exit 1 "Only local templates can be exported.")
  | Some (local _) =>
  present ← gets (λ st, templates st !! templateName);
  match present with
  | None => stop (exit 1 "Template files not found")
  | Some templateDir =>
  loaded ← loadTemplateMetadata templateName;
  match loaded with
  | None => stop (exit 1 "Template metadata not found")
  | Some metadata => mret (createBrickArchive templateDir metadata)
  end end end end.
End exportCommand.

(** ** import *)

(** The file at the path given to [import]: absent, not an archive that
    [tar.extract] reads, or an archive. *)
Inductive brick_file :=
  | no_file
  | not_a_tar
  | tar (entries : archive).

Record ImportOptions := {
  import_name : option string;
  force : bool;
}.

(** The answers to the prompts of [import]; for the new name, what the user
    submits, one attempt after the other, before giving up. *)
Record ImportPrompts := {
  import_shouldOverwrite : answer bool;
  newName : list string;
}.

(** [/^[a-z0-9-_]+$/i.test(value)]. *)
Definition name_char (c : ascii) : bool :=
  let n := nat_of_ascii c in
  ((97 <=? n)%nat && (n <=? 122)%nat) || ((65 <=? n)%nat && (n <=? 90)%nat)
  || ((48 <=? n)%nat && (n <=? 57)%nat)
  || bool_decide (c = "-"%char) || bool_decide (c = "_"%char).

Definition name_ok (value : string) : bool :=
  truthy value && forallb name_char (list_ascii_of_string value).

(** [p.text] with a [validate] function: a submission that does not
    validate is asked again. *)
Definition p_text (validate : string → bool) (attempts : list string)
  : answer string :=
  match filter (λ a, validate a) attempts with
  | a :: _ => value a
  | [] => cancel
  end.

(** [tar.extract] into an empty directory: a later entry of a name
    replaces an earlier one. *)
Definition tar_extract (entries : archive) : dir :=
  list_to_map (reverse entries).

Fixpoint strip_prefix (p s : string) : option string :=
  match p, s with
  | "", _ => Some s
  | String c p', String d s' =>
      if decide (c = d) then strip_prefix p' s' else None
  | String _ _, "" => None
  end.

(** The files below the directory [d] of [m], by their paths relative to
    [d]. *)
Definition subdir (d : string) (m : dir) : dir :=
  list_to_map
    (omap (λ e, (λ r, (r, e.2)) <$> strip_prefix (d +:+ "/") e.1)
          (map_to_list m)).

(** Everything but the entry [brick.json] of the directory itself. *)
Definition without_brick_json (m : dir) : dir :=
  filter (λ e, head (split "/" e.1) ≠ Some "brick.json") m.

Section importCommand.
Context `{Host}.

(** [fs.copy] of a directory onto [templates/<name>]. *)
Definition fs_copy (d : dir) (name : string) : cmd () :=
  modify (λ st,
    with_templates
      (<[name := d ∪ default ∅ (templates st !! name)]> (templates st)) st).

(** [options.name || metadata.name]. *)
Definition initial_name (options : ImportOptions) (metadata : BrickMetadata.t)
  : string :=
  match import_name options with
  | Some n => if truthy n then n else BrickMetadata.name metadata
  | None => BrickMetadata.name metadata
  end.

(** The name under which the template is imported, given whether the
    initial name is taken; [cancel] when the import is cancelled. *)
Definition settle_name (existing : bool) (options : ImportOptions)
    (prompts : ImportPrompts) (templateName : string) : answer string :=
  if existing then
    if force options then value templateName
    else match import_shouldOverwrite prompts with
         | value true => value templateName
         | _ => p_text name_ok (newName prompts)
         end
  else value templateName.

(** What is copied: the entry [template] of the extracted archive when
    [fs.pathExists] finds it, everything but [brick.json] otherwise. When
    [template] is a regular file, [fs.copy] puts that file at the path of
    the directory of the template, which was removed before; the write of
    [brick.json] below that path then throws, and the [catch] of the command
    exits. The state then shows no directory for the name; the file that
    lies at its path is not represented. *)
Definition copy_template (tempDir : dir) (templateName : string) : cmd () :=
  if bool_decide (is_Some (tempDir !! "template"))
  then stop (exit 1 "Import failed")
  else if bool_decide (subdir "template" tempDir ≠ ∅)
  then fs_copy (subdir "template" tempDir) templateName
  else fs_ensureDir templateName;;
       fs_copy (without_brick_json tempDir) templateName.

Definition updatedMetadata (metadata : BrickMetadata.t)
    (templateName fileName now : string) : BrickMetadata.t :=
  {| BrickMetadata.name := templateName;
     BrickMetadata.type := BrickMetadata.type metadata;
     BrickMetadata.version := BrickMetadata.version metadata;
     BrickMetadata.description := BrickMetadata.description metadata;
     BrickMetadata.createdAt := BrickMetadata.createdAt metadata;
     BrickMetadata.updatedAt := now;
     BrickMetadata.source :=
       {| BrickMetadata.origin := "local";
          BrickMetadata.path := "imported from " +:+ fileName |};
     BrickMetadata.files := BrickMetadata.files metadata;
     BrickMetadata.tags := BrickMetadata.tags metadata;
     BrickMetadata.dependencies := BrickMetadata.dependencies metadata;
     BrickMetadata.devDependencies := BrickMetadata.devDependencies metadata |}.

Definition storeEntry (metadata : BrickMetadata.t)
    (templateName now : string) : Template :=
  local {| LocalTemplate.path := getTemplatePath templateName;
           LocalTemplate.description := BrickMetadata.description metadata;
           LocalTemplate.tags := BrickMetadata.tags metadata;
           LocalTemplate.createdAt :=
             if truthy (BrickMetadata.createdAt metadata)
             then BrickMetadata.createdAt metadata else now;
           LocalTemplate.updatedAt := now |}.

Definition importCommand (file : brick_file) (fileName : string)
    (options : ImportOptions) (prompts : ImportPrompts) (now : string)
  : cmd () :=
  init ← isInitialized;
  if negb init then stop (exit 1 "CodeBrick is not initialized.") else
  match file with
  | no_file => stop (exit 1 "File not found")
  | not_a_tar => stop (exit 1 "Import failed")
  | tar entries =>
  let tempDir := tar_extract entries in
  match tempDir !! "brick.json" with
  | None =>
      stop (exit 1 "Invalid .brick file: missing brick.json metadata")
  | Some text =>
  match JSON_parse text with
  | None => stop (exit 1 "Import failed")
  | Some metadata =>
  existing ← templateExists (initial_name options metadata);
  match settle_name existing options prompts (initial_name options metadata)
  with
  | cancel => mret ()
  | value templateName =>
  present ← fs_pathExists templateName;
  when present (fs_remove templateName);;
  copy_template tempDir templateName;;
  saveTemplateMetadata templateName
    (updatedMetadata metadata templateName fileName now);;
  addTemplateToStore templateName (storeEntry metadata templateName now)
  end end end end.
End importCommand.

(** ** Notions of the statements *)

(** The character [c] does not occur in [s]. *)
Definition free_of (c : ascii) (s : string) : Prop :=
  c ∉ list_ascii_of_string s.

(** What a command that works on the template [name] leaves alone: the
    registry, the other templates, and which files the template has. *)
Definition same_frame (name : string) (st st' : State) : Prop :=
  initialized st' = initialized st ∧
  store st' = store st ∧
  (∀ other, other ≠ name → templates st' !! other = templates st !! other) ∧
  dom <$> templates st' !! name = dom <$> templates st !! name.

(** The files that [copy_template] leaves in a directory that was absent,
    for an archive without a regular file [template]. *)
Definition imported_files (tempDir : dir) : dir :=
  if bool_decide (subdir "template" tempDir ≠ ∅)
  then subdir "template" tempDir
  else without_brick_json tempDir.

(** ** An example host *)

(** A codec for the metadata that stands for JSON in the examples: every
    string is written after its length in unary, every list after its
    number of elements. *)
Fixpoint write_unary (n : nat) : string :=
  match n with
  | 0 => "0"
  | S n' => String "1" (write_unary n')
  end.

Definition write_string (s : string) : string :=
  write_unary (String.length s) +:+ s.

Fixpoint write_strings (l : list string) : string :=
  match l with
  | [] => ""
  | s :: l' => write_string s +:+ write_strings l'
  end.

Definition write_list (l : list string) : string :=
  write_unary (length l) +:+ write_strings l.

Definition write_deps (d : option (list (string * string))) : string :=
  match d with
  | None => "0"
  | Some l => String "1" (write_list l.*1 +:+ write_list l.*2)
  end.

Definition example_stringify (m : BrickMetadata.t) : string :=
  write_list
    [ BrickMetadata.name m; BrickMetadata.type m; BrickMetadata.version m;
      BrickMetadata.description m; BrickMetadata.createdAt m;
      BrickMetadata.updatedAt m;
      BrickMetadata.origin (BrickMetadata.source m);
      BrickMetadata.path (BrickMetadata.source m) ]
  +:+ write_list (BrickMetadata.files m)
  +:+ write_list (BrickMetadata.tags m)
  +:+ write_deps (BrickMetadata.dependencies m)
  +:+ write_deps (BrickMetadata.devDependencies m).

Fixpoint read_unary (s : string) : option (nat * string) :=
  match s with
  | String "0" r => Some (0, r)
  | String "1" r => p ← read_unary r; Some (S p.1, p.2)
  | _ => None
  end.

Fixpoint take_chars (n : nat) (s : string) : option (string * string) :=
  match n with
  | 0 => Some ("", s)
  | S n' =>
      match s with
      | String c r => p ← take_chars n' r; Some (String c p.1, p.2)
      | "" => None
      end
  end.

Definition read_string (s : string) : option (string * string) :=
  p ← read_unary s; take_chars p.1 p.2.

Fixpoint read_strings (n : nat) (s : string) : option (list string * string) :=
  match n with
  | 0 => Some ([], s)
  | S n' =>
      p ← read_string s; q ← read_strings n' p.2; Some (p.1 :: q.1, q.2)
  end.

Definition read_list (s : string) : option (list string * string) :=
  p ← read_unary s; read_strings p.1 p.2.

Definition read_deps (s : string)
  : option (option (list (string * string)) * string) :=
  match s with
  | String "0" r => Some (None, r)
  | String "1" r =>
      ks ← read_list r; vs ← read_list ks.2; Some (Some (zip ks.1 vs.1), vs.2)
  | _ => None
  end.

Definition example_parse (s : string) : option BrickMetadata.t :=
  scalars ← read_list s;
  files ← read_list scalars.2;
  tags ← read_list files.2;
  deps ← read_deps tags.2;
  devs ← read_deps deps.2;
  match scalars.1 with
  | [n; ty; v; d; c; u; o; p] =>
      Some {| BrickMetadata.name := n; BrickMetadata.type := ty;
              BrickMetadata.version := v; BrickMetadata.description := d;
              BrickMetadata.createdAt := c; BrickMetadata.updatedAt := u;
              BrickMetadata.source :=
                {| BrickMetadata.origin := o; BrickMetadata.path := p |};
              BrickMetadata.files := files.1; BrickMetadata.tags := tags.1;
              BrickMetadata.dependencies := deps.1;
              BrickMetadata.devDependencies := devs.1 |}
  | _ => None
  end.

(** A regular expression engine for the examples: it knows the source
    [^$] and the sources that are one word, and refuses the others. *)
Definition word_char (c : ascii) : bool :=
  let n := nat_of_ascii c in
  ((97 <=? n)%nat && (n <=? 122)%nat) || ((65 <=? n)%nat && (n <=? 90)%nat)
  || ((48 <=? n)%nat && (n <=? 57)%nat).

Definition example_RegExp (source flags : string) : option (string → bool) :=
  if decide (source = "^$") then Some (λ s, bool_decide (s = ""))
  else if truthy source && forallb word_char (list_ascii_of_string source)
       then Some (λ s, includes s source)
       else None.

(** A glob for the examples: every pattern is the path of a file; the
    result keeps the order of the patterns. *)
Definition example_fg (patterns ignore : list string)
    (entries : list (string * node)) : list string :=
  filter (λ p, is_Some (read_source entries p) ∧ p ∉ ignore) patterns.

(** ** Example inputs *)

Definition demo_metadata : BrickMetadata.t :=
  {| BrickMetadata.name := "demo";
     BrickMetadata.type := "local";
     BrickMetadata.version := "1.0.0";
     BrickMetadata.description := "a demo";
     BrickMetadata.createdAt := "2026-01-11T10:30:00Z";
     BrickMetadata.updatedAt := "2026-01-11T10:30:00Z";
     BrickMetadata.source :=
       {| BrickMetadata.origin := "local"; BrickMetadata.path := "/proj" |};
     BrickMetadata.files := ["notes.txt"; "readme.md"];
     BrickMetadata.tags := ["demo"];
     BrickMetadata.dependencies := None;
     BrickMetadata.devDependencies := None |}.

Definition demo_entry : LocalTemplate.t :=
  {| LocalTemplate.path := "templates/demo";
     LocalTemplate.description := "a demo";
     LocalTemplate.tags := ["demo"];
     LocalTemplate.createdAt := "2026-01-11T10:30:00Z";
     LocalTemplate.updatedAt := "2026-01-11T10:30:00Z" |}.

(** A text of three lines, the second with the word TODO. *)
Definition todo_text : string :=
  "keep" +:+ String LF ("a TODO" +:+ String LF "end").

Definition demo_dir : dir :=
  {[ "brick.json" := example_stringify demo_metadata;
     "readme.md" := "# demo";
     "notes.txt" := todo_text ]}.

(** A state with the one local template [demo]. *)
Definition demo_state : State :=
  {| initialized := true;
     store := [("demo", local demo_entry)];
     templates := {[ "demo" := demo_dir ]} |}.

(** A state after [brick init], without templates. *)
Definition empty_state : State :=
  {| initialized := true; store := []; templates := ∅ |}.

(** A source directory with [lib/a.ts] and [src/b.ts]. *)
Definition project : list (string * node) :=
  [ ("lib", Dir [("a.ts", File "export const a = 1;")]);
    ("src", Dir [("b.ts", File "export const b = 2;")]) ].

Definition plain_save : SaveOptions :=
  {| save_description := None; save_tags := None; include := None;
     exclude := None; detectDeps := false |}.

Definition described_save (inc : option string) : SaveOptions :=
  {| save_description := Some "two files"; save_tags := None; include := inc;
     exclude := None; detectDeps := false |}.

Definition no_answers : SavePrompts :=
  {| save_shouldOverwrite := cancel; addDeps := cancel; descInput := cancel |}.

(** The options of [clean] with the custom pattern [TODO]. *)
Definition clean_todo (dry : bool) : CleanOptions :=
  {| pattern := Some "TODO"; dryRun := dry; keepExternal := None |}.

(** The archive that [export] writes for [demo]. *)
Definition demo_archive : archive :=
  [ ("template/readme.md", "# demo");
    ("template/notes.txt", todo_text);
    ("brick.json", example_stringify demo_metadata) ].

(** ** More of lib/utils *)

(** Three line feeds. *)
Definition LF3 : string := String LF (String LF (String LF "")).

(** [getDirectoryStats]: the counters of [processDir] after the entry
    [name]; the size of a file is the length of its content in bytes. *)
Record DirectoryStats := {
  stats_files : nat;
  stats_directories : nat;
  stats_totalSize : nat;
}.

Definition stats_add (a b : DirectoryStats) : DirectoryStats :=
  {| stats_files := stats_files a + stats_files b;
     stats_directories := stats_directories a + stats_directories b;
     stats_totalSize := stats_totalSize a + stats_totalSize b |}.

Definition stats_zero : DirectoryStats :=
  {| stats_files := 0; stats_directories := 0; stats_totalSize := 0 |}.

Fixpoint processDir_entry (name : string) (n : node) : DirectoryStats :=
  match n with
  | Dir entries =>
      if negb (startsWith name ".") && negb (bool_decide (name = "node_modules"))
         && negb (bool_decide (name = "__pycache__"))
      then
        stats_add
          {| stats_files := 0; stats_directories := 1; stats_totalSize := 0 |}
          (foldr stats_add stats_zero
             (map (λ e, processDir_entry e.1 e.2) entries))
      else stats_zero
  | File content =>
      if negb (startsWith name ".")
      then {| stats_files := 1; stats_directories := 0;
              stats_totalSize := String.length content |}
      else stats_zero
  end.

Definition getDirectoryStats (entries : list (string * node))
  : DirectoryStats :=
  foldr stats_add stats_zero (map (λ e, processDir_entry e.1 e.2) entries).

(** [str.slice(0, end)] for an integer [end]: a negative [end] counts from
    the end of the string. *)
Definition slice_to (str : string) (end_ : Z) : string :=
  let len := Z.of_nat (String.length str) in
  let to := if decide (end_ < 0)%Z then Z.max (len + end_) 0
            else Z.min end_ len in
  String.substring 0 (Z.to_nat to) str.

Definition truncate (str : string) (maxLength : Z) : string :=
  if decide (Z.of_nat (String.length str) ≤ maxLength)%Z then str
  else slice_to str (maxLength - 3) +:+ "...".

(** ** init *)

(** [try { body } catch { process.exit(1) }]. *)
Definition catch_exit {A} (body : cmd A) (message : string) : cmd A :=
  λ st, match body st with
        | (inl thrown, st') => (inl (exit 1 message), st')
        | r => r
        end.

(** [initCommand]; [initializeStorage] of [lib/storage], which is not among
    the sources, is an argument. *)
Definition initCommand `{Host} (initializeStorage : cmd ()) : cmd () :=
  alreadyInitialized ← isInitialized;
  if alreadyInitialized : bool then mret ()
  else catch_exit initializeStorage "Failed to initialize CodeBrick".

(** ** Further notions of the statements *)

(** A name of a directory entry: not empty, without a slash. *)
Definition valid_name (s : string) : bool :=
  truthy s && bool_decide ("/"%char ∉ list_ascii_of_string s).

(** A directory as a file system has it: in every directory the names are
    valid and no two entries have the same name. *)
Fixpoint well_formed (n : node) : bool :=
  match n with
  | File _ => true
  | Dir entries =>
      bool_decide (NoDup entries.*1)
      && forallb (λ e, valid_name e.1 && well_formed e.2) entries
  end.

(** The segments of a path that [getFilesRecursive] does not skip: no
    segment begins with a dot, no directory on the way is [node_modules] or
    [__pycache__], and the file is not a [brick.json]. *)
Fixpoint visible (segments : list string) : bool :=
  match segments with
  | [] => false
  | [file] =>
      negb (startsWith file ".") && negb (bool_decide (file = "brick.json"))
  | d :: rest =>
      negb (startsWith d "." || bool_decide (d = "node_modules")
            || bool_decide (d = "__pycache__"))
      && visible rest
  end.

(** One segment of a path that names an entry of its own: not empty,
    without a slash, and neither [.] nor [..]. *)
Definition is_segment (s : string) : bool :=
  valid_name s && negb (bool_decide (s = ".")) && negb (bool_decide (s = "..")).

(** A normalised relative path: [path.join(dir, p)] is [dir/p] itself. *)
Definition normal_path (p : string) : bool :=
  forallb is_segment (split "/" p).

(** Every directory below [templates/] is the directory of one name. *)
Definition flat_storage (st : State) : bool :=
  forallb (λ e, is_segment e.1) (map_to_list (templates st)).

(** The relative path of what lies [segments] below [rel]. *)
Fixpoint join_path (rel : string) (segments : list string) : string :=
  match segments with
  | [] => rel
  | s :: rest => join_path (relative_join rel s) rest
  end.

(** The call of [cleanFileContent] that both loops of [cleanCommand] make
    for the file at the path [p] of a template. *)
Definition clean_file `{Host} (options : CleanOptions) (templateDir : dir)
    (p content : string) : option CleanResult :=
  cleanFileContent (toLowerCase (extname p)) (pattern options)
    (detectProjectName templateDir)
    (negb (bool_decide (keepExternal options = Some false))) content.

(** ** Further example inputs *)

(** An [initializeStorage] for the examples: the root with an empty
    registry and no templates (README, "brick init"). *)
Definition example_initializeStorage : cmd () :=
  modify (λ _, {| initialized := true; store := []; templates := ∅ |}).

(** A source directory with what [getFilesRecursive] skips. *)
Definition workspace : list (string * node) :=
  [ ("src", Dir [ ("main.ts", File "import x from 'y';");
                  (".cache", File "c");
                  ("brick.json", File "{}") ]);
    ("node_modules", Dir [ ("left-pad", Dir [ ("index.js", File "m") ]) ]);
    (".git", Dir [ ("HEAD", File "ref") ]);
    ("brick.json", File "{}");
    ("README.md", File "read me") ].

(** Answers that agree to everything and describe nothing. *)
Definition yes_answers : SavePrompts :=
  {| save_shouldOverwrite := value true; addDeps := value true;
     descInput := value "" |}.

(** An archive of the older layout: the files beside [brick.json]. *)
Definition legacy_archive : archive :=
  [ ("brick.json", example_stringify demo_metadata);
    ("readme.md", "# demo");
    ("notes.txt", todo_text) ].


(** A save with tags, an excluded file and the detection of
    dependencies. *)
Definition full_save : SaveOptions :=
  {| save_description := Some "a workspace"; save_tags := Some "ts, ,demo";
     include := None; exclude := Some "README.md"; detectDeps := true |}.

(** The answers of a user who declines to overwrite and then types a name
    with a blank before a name that passes. *)
Definition rename_answers : ImportPrompts :=
  {| import_shouldOverwrite := value false;
     newName := ["my demo"; "demo-2"] |}.

(* ================================================================== *)
(** * Properties *)
(* ================================================================== *)

(** ** Strings *)

Lemma app_String c a b : String c a +:+ b = String c (a +:+ b).
Proof. done. Qed.

Lemma app_empty a : "" +:+ a = a.
Proof. done. Qed.

Lemma app_assoc_s a b c : (a +:+ b) +:+ c = a +:+ (b +:+ c).
Proof. induction a; [done|]. rewrite !app_String. by f_equal. Qed.

Lemma app_empty_r a : a +:+ "" = a.
Proof. induction a; [done|]. rewrite app_String. by f_equal. Qed.

Lemma read_write_unary n r : read_unary (write_unary n +:+ r) = Some (n, r).
Proof.
  induction n as [|n IH]; [done|]. cbn [write_unary]. rewrite app_String.
  cbn [read_unary]. by rewrite IH.
Qed.

Lemma take_chars_app s r : take_chars (String.length s) (s +:+ r) = Some (s, r).
Proof.
  induction s as [|c s IH]; [done|]. rewrite app_String. cbn. by rewrite IH.
Qed.

Lemma read_write_string s r : read_string (write_string s +:+ r) = Some (s, r).
Proof.
  unfold read_string, write_string. rewrite app_assoc_s, read_write_unary.
  cbn. apply take_chars_app.
Qed.

Lemma read_write_strings l r :
  read_strings (length l) (write_strings l +:+ r) = Some (l, r).
Proof.
  induction l as [|s l IH]; [done|]. cbn [write_strings length read_strings].
  rewrite app_assoc_s, read_write_string. cbn. by rewrite IH.
Qed.

Lemma read_write_list l r : read_list (write_list l +:+ r) = Some (l, r).
Proof.
  unfold read_list, write_list. rewrite app_assoc_s, read_write_unary.
  cbn. apply read_write_strings.
Qed.

Lemma read_write_deps d r : read_deps (write_deps d +:+ r) = Some (d, r).
Proof.
  destruct d as [l|]; [|done]. cbn [write_deps]. rewrite app_String.
  cbn [read_deps]. rewrite app_assoc_s, read_write_list.
  cbn [mbind option_bind fst snd]. rewrite read_write_list.
  cbn [mbind option_bind fst snd]. by rewrite zip_fst_snd.
Qed.

Lemma example_parse_stringify m : example_parse (example_stringify m) = Some m.
Proof.
  unfold example_parse, example_stringify.
  rewrite read_write_list. cbn [mbind option_bind fst snd].
  rewrite read_write_list. cbn [mbind option_bind fst snd].
  rewrite read_write_list. cbn [mbind option_bind fst snd].
  rewrite read_write_deps. cbn [mbind option_bind fst snd].
  rewrite <- (app_empty_r (write_deps (BrickMetadata.devDependencies m))).
  rewrite read_write_deps. cbn [mbind option_bind fst snd].
  by destruct m as [??????[]].
Qed.

(** ** The example host *)

Definition example_host : Host :=
  {| RegExp := example_RegExp;
     RegExp_captures := λ _ _ _, [];
     JSON_stringify := example_stringify;
     JSON_parse := example_parse;
     JSON_parse_name := λ _, None;
     fg := example_fg;
     homedir := "/home/dev";
     JSON_parse_stringify := example_parse_stringify |}.

(** ** The helpers at inputs *)

Example split_commas :
  split_trim "auth, jwt ,,nestjs" = ["auth"; "jwt"; ""; "nestjs"].
Proof. reflexivity. Qed.

Example collapse_four :
  collapse_newlines
    ("a" +:+ String LF (String LF (String LF (String LF "b"))))
  = "a" +:+ String LF (String LF "b").
Proof. reflexivity. Qed.

Example extname_cases :
  extname "src/Auth.Service.TS" = ".TS" ∧ extname "src/.env" = "" ∧
  extname "Makefile" = "" ∧ extname "a.b/c" = "" ∧ extname "index." = ".".
Proof. by vm_compute. Qed.

(** The scenario of the specification: a directory with [a.ts] and
    [sub/b.ts], some hidden entries, [node_modules] and a [brick.json]. *)
Example getFilesRecursive_scenario :
  getFilesRecursive
    [ ("sub", Dir [("b.ts", File "b"); ("brick.json", File "{}")]);
      (".git", Dir [("config", File "")]);
      ("node_modules", Dir [("x.js", File "")]);
      ("a.ts", File "a");
      (".env", File "");
      ("brick.json", File "{}") ]
  = ["a.ts"; "sub/b.ts"].
Proof. reflexivity. Qed.

Example name_ok_cases :
  name_ok "nestjs-auth_2" = true ∧ name_ok "" = false ∧
  name_ok "a/b" = false ∧ name_ok "my template!" = false.
Proof. by vm_compute. Qed.

(** ** Lines *)

Lemma split_cons_inv sep s : ∃ l ls, split sep s = l :: ls.
Proof.
  destruct s as [|c s]; simpl; [by eauto|].
  case_decide; [by eauto|]. destruct (split sep s); eauto.
Qed.

Lemma split_not_nil sep s : split sep s ≠ [].
Proof. destruct (split_cons_inv sep s) as (l & ls & ->). done. Qed.

Lemma join_cons sep l l' ls :
  join sep (l :: l' :: ls) = l +:+ sep +:+ join sep (l' :: ls).
Proof. done. Qed.

Lemma join_split sep s : join (String sep "") (split sep s) = s.
Proof.
  induction s as [|c s IH]; [done|]. cbn [split].
  destruct (split_cons_inv sep s) as (l & ls & Hs). rewrite Hs in *.
  case_decide as Hc.
  - subst c. by rewrite join_cons, app_empty, app_String, app_empty, IH.
  - destruct ls as [|l' ls].
    + cbn in *. by rewrite IH.
    + rewrite join_cons, app_String. rewrite join_cons in IH. by rewrite IH.
Qed.

Lemma free_of_nil c : free_of c "".
Proof. unfold free_of. simpl. apply not_elem_of_nil. Qed.

Lemma free_of_cons c d s : free_of c (String d s) ↔ d ≠ c ∧ free_of c s.
Proof.
  unfold free_of. simpl. rewrite not_elem_of_cons.
  split; intros [? ?]; split; congruence.
Qed.

Lemma split_free sep s : Forall (free_of sep) (split sep s).
Proof.
  induction s as [|c s IH]; simpl.
  - repeat constructor. apply free_of_nil.
  - case_decide.
    + constructor; [apply free_of_nil | done].
    + destruct (split sep s) as [|l ls].
      * repeat constructor. apply free_of_cons. split; [done | apply free_of_nil].
      * inversion IH; subst. constructor; [|done]. by apply free_of_cons.
Qed.

Lemma split_free_id sep l : free_of sep l → split sep l = [l].
Proof.
  induction l as [|c l IH]; simpl; [done|].
  intros [? ?]%free_of_cons. case_decide; [done|]. by rewrite IH.
Qed.

Lemma split_app_sep sep l s :
  free_of sep l → split sep (l +:+ String sep s) = l :: split sep s.
Proof.
  induction l as [|c l IH]; simpl.
  - intros _. by rewrite decide_True.
  - intros [? ?]%free_of_cons. case_decide; [done|].
    change (String.append l (String sep s)) with (l +:+ String sep s).
    by rewrite IH.
Qed.

Lemma split_join sep ls :
  ls ≠ [] → Forall (free_of sep) ls → split sep (join (String sep "") ls) = ls.
Proof.
  induction ls as [|l ls IH]; [done|]. intros _ Hf.
  inversion Hf as [|?? Hl Hls]; subst.
  destruct ls as [|l' ls].
  - simpl. by apply split_free_id.
  - change (join (String sep "") (l :: l' :: ls))
      with (l +:+ String sep "" +:+ join (String sep "") (l' :: ls)).
    change (String sep "" +:+ join (String sep "") (l' :: ls))
      with (String sep (join (String sep "") (l' :: ls))).
    rewrite split_app_sep by done. f_equal. by apply IH.
Qed.

Lemma collapse_from_idem n s :
  collapse_from (n `min` 2) (collapse_from n s) = collapse_from n s.
Proof.
  revert n. induction s as [|c s IH]; intros n; [done|]. cbn [collapse_from].
  destruct (decide (c = LF)) as [->|Hc].
  - destruct (decide (n < 2)) as [Hn|Hn].
    + cbn [collapse_from]. rewrite decide_True by done.
      rewrite Nat.min_l by lia. rewrite decide_True by done.
      f_equal. specialize (IH (S n)). by rewrite Nat.min_l in IH by lia.
    + specialize (IH (S n)). rewrite Nat.min_r in IH by lia.
      by rewrite Nat.min_r by lia.
  - cbn [collapse_from]. rewrite decide_False by done. f_equal. apply (IH 0).
Qed.

Lemma collapse_newlines_idem s :
  collapse_newlines (collapse_newlines s) = collapse_newlines s.
Proof. apply (collapse_from_idem 0). Qed.

(** The lines of the collapsed text are lines of the text, in order; from a
    position that follows no line feed the first line is kept. *)
Lemma split_collapse s :
  (∀ n, split LF (collapse_from n s) `sublist_of` split LF s) ∧
  (∃ l ls ls', split LF s = l :: ls ∧
     split LF (collapse_from 0 s) = l :: ls' ∧ ls' `sublist_of` ls).
Proof.
  induction s as [|c s [IHa IHb]].
  - split; [done|]. by exists "", [], [].
  - cbn [collapse_from split].
    destruct (decide (c = LF)) as [->|Hc].
    + split.
      * intros n. case_decide.
        -- cbn [split]. rewrite decide_True by done. by apply sublist_skip.
        -- by apply sublist_cons.
      * eexists "", _, _. split; [done|]. rewrite decide_True by lia.
        cbn [split]. rewrite decide_True by done. split; [done | apply IHa].
    + destruct IHb as (l & ls & ls' & Hs & Hs' & Hsub).
      rewrite Hs. cbn [split]. rewrite decide_False, Hs' by done.
      split; [intros _; by apply sublist_skip | by eauto 6].
Qed.

Lemma Forall_sublist {A} (P : A → Prop) (l1 l2 : list A) :
  l1 `sublist_of` l2 → Forall P l2 → Forall P l1.
Proof.
  intros Hsub%sublist_subseteq. rewrite !Forall_forall. intros HP x Hx.
  apply HP, Hsub, Hx.
Qed.

Section idem.
Context `{Host}.
Variables (ext : string) (customPattern projectName : option string)
          (keepExternal : bool).
Local Abbreviation rm :=
  (shouldRemove ext customPattern projectName keepExternal).
Local Abbreviation clean :=
  (clean_lines ext customPattern projectName keepExternal).

Lemma clean_lines_kept lines kept n :
  clean lines = Some (kept, n) →
  kept `sublist_of` lines ∧ Forall (λ l, rm l = Some false) kept.
Proof.
  revert kept n. induction lines as [|l ls IH]; intros kept n; cbn [clean_lines].
  - intros [= <- <-]. done.
  - destruct (rm l) as [[]|] eqn:Hl; [| |done]; cbn;
      destruct (clean ls) as [[k m]|]; [|done| |done]; cbn;
      intros [= <- <-]; destruct (IH _ _ eq_refl) as [? ?].
    + split; [by apply sublist_cons | done].
    + split; [by apply sublist_skip | by constructor].
Qed.

Lemma clean_lines_clean lines :
  Forall (λ l, rm l = Some false) lines → clean lines = Some (lines, 0).
Proof.
  induction 1 as [|l ls Hl _ IH]; cbn [clean_lines]; [done|].
  by rewrite Hl, IH.
Qed.

(** The lines of the text that comes back are lines that were kept, when
    some line was kept or the empty line is one to keep. *)
Lemma cleaned_lines_kept kept :
  Forall (free_of LF) kept →
  Forall (λ l, rm l = Some false) kept →
  kept ≠ [] ∨ rm "" = Some false →
  Forall (λ l, rm l = Some false)
    (split LF (collapse_newlines (join (String LF "") kept))).
Proof.
  intros Hfree Hkept Hne. destruct (decide (kept = [])) as [->|Hk].
  - cbn. destruct Hne as [?|?]; [done|]. by repeat constructor.
  - eapply Forall_sublist; [|exact Hkept].
    etrans; [apply (proj1 (split_collapse _) 0)|]. by rewrite split_join.
Qed.


(** The text that comes back is in every case the text that went in. *)
Lemma cleanFileContent_fixed content r r' :
  cleanFileContent ext customPattern projectName keepExternal content = Some r →
  cleanFileContent ext customPattern projectName keepExternal (cleaned r)
    = Some r' →
  cleaned r' = cleaned r.
Proof.
  unfold cleanFileContent. intros Hr Hr'.
  destruct (clean (split LF content)) as [[kept n]|] eqn:Hc; [|done].
  cbn in Hr. injection Hr as <-. cbn [cleaned] in *.
  destruct (clean_lines_kept _ _ _ Hc) as [Hsub Hkept].
  destruct (decide (kept = [])) as [->|Hk].
  - cbn in Hr'. destruct (rm "") as [[]|]; by simplify_eq/=.
  - rewrite clean_lines_clean in Hr'.
    + cbn in Hr'. injection Hr' as <-. cbn.
      by rewrite join_split, collapse_newlines_idem.
    + apply cleaned_lines_kept; [|done|by left].
      eapply Forall_sublist; [exact Hsub | apply split_free].
Qed.
End idem.

(** ** Commands *)

Ltac cmd_unfold :=
  unfold run, mbind, cmd_bind, mret, cmd_ret, when, stop, gets, modify,
    isInitialized, templateExists, getTemplate, resolveTemplateName,
    loadTemplateMetadata in *.

Section clean_props.
Context `{Host}.

(** C9. With [dryRun], [cleanCommand] writes nothing: the state after the
    command is the state before it, whatever is found to clean. *)
Theorem cleanCommand_dryRun nameOrIndex options confirmed now st :
  dryRun options = true →
  (run (cleanCommand nameOrIndex options confirmed now) st).2 = st.
Proof.
  intros Hdry. unfold cleanCommand. cmd_unfold. cbn.
  destruct (initialized st); cbn; [|done].
  destruct (resolve_in (store st) nameOrIndex) as [name|]; cbn; [|done].
  destruct (store_get name (store st)) as [[t|t]|]; cbn; [|done..].
  destruct (metadata_of st name) as [metadata|]; cbn; [|done].
  case_bool_decide; cbn; [done|]. by rewrite Hdry.
Qed.

(** Without the confirmation, too, [cleanCommand] writes nothing. *)
Lemma cleanCommand_declined nameOrIndex options confirmed now st :
  confirmed ≠ value true →
  (run (cleanCommand nameOrIndex options confirmed now) st).2 = st.
Proof.
  intros Hno. unfold cleanCommand. cmd_unfold. cbn.
  destruct (initialized st); cbn; [|done].
  destruct (resolve_in (store st) nameOrIndex) as [name|]; cbn; [|done].
  destruct (store_get name (store st)) as [[t|t]|]; cbn; [|done..].
  destruct (metadata_of st name) as [metadata|]; cbn; [|done].
  case_bool_decide; cbn; [done|]. destruct (dryRun options); cbn; [done|].
  by destruct confirmed as [|[]].
Qed.
End clean_props.

Lemma same_frame_refl name st : same_frame name st st.
Proof. done. Qed.

Lemma same_frame_trans name st1 st2 st3 :
  same_frame name st1 st2 → same_frame name st2 st3 → same_frame name st1 st3.
Proof.
  intros (?&?&Ho&?) (?&?&Ho'&?). repeat split; [congruence..| |congruence].
  intros other ?. by rewrite Ho', Ho.
Qed.

Section clean_frame.
Context `{Host}.

Lemma fs_writeFile_frame name path content st old :
  fs_readFile name path st = (inr (Some old), st) →
  ∃ st', fs_writeFile name path content st = (inr (), st') ∧
         same_frame name st st'.
Proof.
  unfold fs_readFile, fs_writeFile. cmd_unfold. intros [= Hold].
  eexists. split; [done|]. repeat split; cbn.
  - intros other ?. by rewrite lookup_insert_ne.
  - rewrite lookup_insert_eq. destruct (templates st !! name) as [d|]; [|done].
    cbn in *. f_equal. rewrite dom_insert_L.
    apply subseteq_union_1_L, singleton_subseteq_l, elem_of_dom. eauto.
Qed.

Lemma rewrite_files_frame name options projectName filesToClean st :
  ∃ st', rewrite_files name options projectName filesToClean st = (inr (), st')
         ∧ same_frame name st st'.
Proof.
  revert st. induction filesToClean as [|[[file ext] n] rest IH]; intros st.
  - eexists. split; [done | apply same_frame_refl].
  - cbn [rewrite_files]. unfold mbind at 1, cmd_bind at 1.
    destruct (fs_readFile name file st) as [r st0] eqn:Hread.
    assert (st0 = st) as ->.
    { unfold fs_readFile in Hread. cmd_unfold. by injection Hread. }
    assert (∃ content, r = inr content) as [content ->].
    { unfold fs_readFile in Hread. cmd_unfold. injection Hread as <-. eauto. }
    unfold mbind at 1, cmd_bind at 1.
    destruct (content ≫= _) as [r|] eqn:Hclean.
    + destruct content as [old|]; [|done].
      destruct (fs_writeFile_frame name file (cleaned r) st old Hread)
        as (st1 & -> & Hf1).
      destruct (IH st1) as (st2 & -> & Hf2).
      eexists. split; [done|]. by eapply same_frame_trans.
    + cbn. destruct (IH st) as (st2 & -> & Hf2). eauto.
Qed.

Lemma saveTemplateMetadata_metadata name m st st' :
  saveTemplateMetadata name m st = (inr (), st') → metadata_of st' name = Some m.
Proof.
  unfold saveTemplateMetadata. cmd_unfold. intros [= <-].
  unfold metadata_of. cbn. rewrite lookup_insert_eq. cbn.
  rewrite lookup_insert_eq. cbn. apply JSON_parse_stringify.
Qed.

Lemma saveTemplateMetadata_frame name m st :
  is_Some (templates st !! name ≫= (.!! "brick.json")) →
  ∃ st', saveTemplateMetadata name m st = (inr (), st') ∧
         same_frame name st st'.
Proof.
  intros Hs. destruct (templates st !! name) as [d|] eqn:Hd; [|by destruct Hs].
  cbn in Hs. unfold saveTemplateMetadata. cmd_unfold. eexists. split; [done|].
  repeat split; cbn.
  - intros other ?. by rewrite lookup_insert_ne.
  - rewrite lookup_insert_eq, Hd. cbn. f_equal. rewrite dom_insert_L.
    by apply subseteq_union_1_L, singleton_subseteq_l, elem_of_dom.
Qed.

Lemma same_frame_metadata_is_Some name st st' :
  same_frame name st st' →
  is_Some (templates st !! name ≫= (.!! "brick.json")) →
  is_Some (templates st' !! name ≫= (.!! "brick.json")).
Proof.
  intros (_&_&_&Hdom) Hs.
  destruct (templates st !! name) as [d|]; [|by destruct Hs].
  destruct (templates st' !! name) as [d'|]; [|done]. cbn in *.
  injection Hdom as Hdom. apply elem_of_dom. rewrite Hdom. by apply elem_of_dom.
Qed.

(** C8. A run of [cleanCommand] that completes leaves the metadata of the
    template as it was, or as it was but for [updatedAt], which is then the
    current time: the manifest, [createdAt] and every other field are those
    of the metadata before the run. *)
Theorem cleanCommand_metadata nameOrIndex options confirmed now st st' :
  run (cleanCommand nameOrIndex options confirmed now) st = (returned, st') →
  ∃ name m,
    resolve_in (store st) nameOrIndex = Some name ∧
    metadata_of st name = Some m ∧
    (metadata_of st' name = Some m ∨
     metadata_of st' name = Some (BrickMetadata.with_updatedAt now m)).
Proof.
  unfold cleanCommand, run. unfold mbind at 1, cmd_bind at 1. cmd_unfold. cbn.
  destruct (initialized st); cbn; [|done].
  destruct (resolve_in (store st) nameOrIndex) as [name|]; cbn; [|done].
  destruct (store_get name (store st)) as [[t|t]|]; cbn; [|done..].
  destruct (metadata_of st name) as [m|] eqn:Hm; cbn; [|done].
  case_bool_decide; cbn.
  { intros [= <-]. exists name, m. eauto. }
  destruct (dryRun options); cbn.
  { intros [= <-]. exists name, m. eauto. }
  destruct confirmed as [|[]]; cbn; [done| |done].
  match goal with |- context [rewrite_files ?a ?b ?c ?d st] =>
    destruct (rewrite_files_frame a b c d st) as (st1 & -> & Hf1) end.
  assert (is_Some (templates st1 !! name ≫= (.!! "brick.json"))) as Hs.
  { eapply same_frame_metadata_is_Some; [done|]. unfold metadata_of in Hm.
    destruct (templates st !! name) as [d|]; [|done]. cbn in *.
    destruct (d !! "brick.json"); [by eauto | done]. }
  destruct (saveTemplateMetadata_frame name
              (BrickMetadata.with_updatedAt now m) st1 Hs) as (st2 & Hsave & Hf2).
  rewrite Hsave. intros [= <-]. exists name, m.
  split; [done|]. split; [done|].
  right. by eapply saveTemplateMetadata_metadata.
Qed.
End clean_frame.

(** ** Archives *)

Section import_props.
Context `{Host}.

Lemma tar_extract_lookup_None entries name :
  name ∉ entries.*1 → tar_extract entries !! name = None.
Proof.
  intros Hn. unfold tar_extract. apply not_elem_of_list_to_map_1.
  by rewrite fmap_reverse, elem_of_reverse.
Qed.

(** C7. An archive without an entry [brick.json] at its root is refused
    with the error of the invalid archive, and the state is unchanged. *)
Theorem importCommand_missing_metadata entries fileName options prompts now st :
  initialized st = true →
  "brick.json" ∉ entries.*1 →
  run (importCommand (tar entries) fileName options prompts now) st
    = (exit 1 "Invalid .brick file: missing brick.json metadata", st).
Proof.
  intros Hinit Hn. unfold importCommand. cmd_unfold. cbn. rewrite Hinit. cbn.
  by rewrite tar_extract_lookup_None.
Qed.
End import_props.
Lemma strip_prefix_Some p s r : strip_prefix p s = Some r ↔ s = p +:+ r.
Proof.
  revert s. induction p as [|c p IH]; intros s; cbn [strip_prefix].
  - split; [by intros [= ->] | by intros ->].
  - rewrite app_String. destruct s as [|d s]; [done|].
    case_decide as Hc; [subst d|].
    + rewrite IH. split; [by intros -> | by intros [= ->]].
    + split; [done | by intros [= ? _]].
Qed.

Lemma template_prefix_ne p : "template/" +:+ p ≠ "brick.json".
Proof. intros Heq. cbv in Heq. discriminate. Qed.

Lemma omap_strip_NoDup pre (l : list (string * string)) :
  NoDup l.*1 →
  NoDup (omap (λ e, (λ r, (r, e.2)) <$> strip_prefix pre e.1) l).*1.
Proof.
  induction l as [|[k v] l IH]; cbn; [constructor|].
  intros [Hk Hl]%NoDup_cons. destruct (strip_prefix pre k) as [r|] eqn:Hr; cbn.
  - apply NoDup_cons. split; [|by apply IH].
    intros ([r' v'] & -> & Hin)%list_elem_of_fmap.
    apply list_elem_of_omap in Hin as ([k' v''] & Hin & Hf). cbn in *.
    destruct (strip_prefix pre k') as [r''|] eqn:Hr'; simplify_eq/=.
    apply strip_prefix_Some in Hr, Hr'. subst. apply Hk.
    apply list_elem_of_fmap. by exists (pre +:+ r', v').
  - by apply IH.
Qed.

Lemma subdir_lookup d (m : dir) p :
  subdir d m !! p = m !! (d +:+ "/" +:+ p).
Proof.
  unfold subdir. apply option_eq. intros v.
  rewrite <- elem_of_list_to_map
    by apply omap_strip_NoDup, NoDup_fst_map_to_list.
  rewrite list_elem_of_omap. split.
  - intros ([k v'] & Hin%elem_of_map_to_list & Hf). cbn in Hf.
    destruct (strip_prefix _ k) as [r|] eqn:Hr; simplify_eq/=.
    apply strip_prefix_Some in Hr as ->.
    by rewrite app_assoc_s in Hin.
  - intros Hin. exists (d +:+ "/" +:+ p, v). split.
    + by apply elem_of_map_to_list.
    + cbn. assert (strip_prefix (d +:+ "/") (d +:+ "/" +:+ p) = Some p) as ->;
        [|done].
      apply strip_prefix_Some. clear. induction d; [done|].
      rewrite !app_String. by f_equal.
Qed.

Lemma filter_none {A} (P : A → Prop) `{∀ x, Decision (P x)} (l : list A) :
  Forall (λ x, ¬ P x) l → filter P l = [].
Proof.
  induction 1 as [|x l Hx _ IH]; [done|]. by rewrite filter_cons_False.
Qed.

Section archive.
Context `{Host}.

Lemma elem_of_createBrickArchive templateDir metadata n c :
  (n, c) ∈ createBrickArchive templateDir metadata ↔
  (n = "brick.json" ∧ c = JSON_stringify metadata) ∨
  (∃ p, n = "template/" +:+ p ∧ p ≠ "brick.json" ∧ templateDir !! p = Some c).
Proof.
  unfold createBrickArchive.
  rewrite elem_of_app, list_elem_of_fmap, list_elem_of_singleton. split.
  - intros [([p c'] & [= -> ->] & [Hp Hin%elem_of_map_to_list]%list_elem_of_filter)|[= -> ->]];
      [right | by left]. by exists p.
  - intros [[-> ->]|(p & -> & Hp & Hin)]; [by right | left].
    exists (p, c). split; [done|]. apply list_elem_of_filter.
    split; [done | by apply elem_of_map_to_list].
Qed.

Lemma createBrickArchive_NoDup templateDir metadata :
  NoDup (createBrickArchive templateDir metadata).*1.
Proof.
  unfold createBrickArchive. rewrite fmap_app. apply NoDup_app. split_and!.
  - rewrite <- list_fmap_compose.
    apply (NoDup_fmap_2_strong (λ e : string * string, "template/" +:+ e.1)).
    + intros [p c] [q c'] [_ Hp%elem_of_map_to_list]%list_elem_of_filter
        [_ Hq%elem_of_map_to_list]%list_elem_of_filter Heq.
      cbn in Heq. apply (inj _) in Heq. subst q. congruence.
    + apply NoDup_filter, NoDup_map_to_list.
  - intros n ([n' c] & -> & ([p c'] & [= -> ->] & _)%list_elem_of_fmap)%list_elem_of_fmap.
    cbn. intros Hin%list_elem_of_singleton. by apply template_prefix_ne in Hin.
  - cbn. apply NoDup_singleton.
Qed.

Lemma createBrickArchive_metadata templateDir metadata :
  filter (λ e, e.1 = "brick.json") (createBrickArchive templateDir metadata)
    = [("brick.json", JSON_stringify metadata)].
Proof.
  unfold createBrickArchive. rewrite filter_app.
  rewrite filter_none; [done|].
  apply Forall_forall. intros [n c] ([p c'] & [= -> ->] & _)%list_elem_of_fmap.
  cbn. apply template_prefix_ne.
Qed.

Lemma tar_extract_lookup (a : archive) n c :
  NoDup a.*1 → tar_extract a !! n = Some c ↔ (n, c) ∈ a.
Proof.
  intros Hnd. unfold tar_extract. rewrite <- elem_of_list_to_map.
  - apply elem_of_reverse.
  - rewrite fmap_reverse. by rewrite reverse_Permutation.
Qed.

Lemma exportCommand_returns st nameOrIndex name t templateDir metadata :
  initialized st = true →
  resolve_in (store st) nameOrIndex = Some name →
  store_get name (store st) = Some (local t) →
  templates st !! name = Some templateDir →
  metadata_of st name = Some metadata →
  exportCommand nameOrIndex st
    = (inr (createBrickArchive templateDir metadata), st).
Proof.
  intros Hinit Hres Hget Hdir Hmeta. unfold exportCommand. cmd_unfold. cbn.
  rewrite Hinit. cbn. rewrite Hres. cbn. rewrite Hget. cbn.
  rewrite Hdir. cbn. by rewrite Hmeta.
Qed.

(** C6. For a local template with its directory and its metadata,
    [exportCommand] yields an archive and leaves the state alone. The
    archive has one entry [brick.json], the loaded metadata serialized; its
    other entries are the files of the directory of the template but the
    [brick.json] of the directory itself, each under [template/] with the
    content it has on disk; no two entries have the same name. *)
Theorem exportCommand_archive st nameOrIndex name t templateDir metadata :
  initialized st = true →
  resolve_in (store st) nameOrIndex = Some name →
  store_get name (store st) = Some (local t) →
  templates st !! name = Some templateDir →
  metadata_of st name = Some metadata →
  ∃ a, exportCommand nameOrIndex st = (inr a, st) ∧
    filter (λ e, e.1 = "brick.json") a
      = [("brick.json", JSON_stringify metadata)] ∧
    (∀ n c, n ≠ "brick.json" →
       (n, c) ∈ a ↔
       ∃ p, n = "template/" +:+ p ∧ p ≠ "brick.json" ∧
            templateDir !! p = Some c) ∧
    NoDup a.*1.
Proof.
  intros Hinit Hres Hget Hdir Hmeta.
  exists (createBrickArchive templateDir metadata).
  split; [by eapply exportCommand_returns|].
  split; [apply createBrickArchive_metadata|].
  split; [|apply createBrickArchive_NoDup].
  intros n c Hn. rewrite elem_of_createBrickArchive. split.
  - by intros [[? _]|?].
  - by right.
Qed.

Lemma tar_extract_createBrickArchive templateDir metadata n :
  tar_extract (createBrickArchive templateDir metadata) !! n =
  if decide (n = "brick.json") then Some (JSON_stringify metadata)
  else p ← strip_prefix "template/" n;
       if decide (p = "brick.json") then None else templateDir !! p.
Proof.
  apply option_eq. intros c.
  rewrite tar_extract_lookup by apply createBrickArchive_NoDup.
  rewrite elem_of_createBrickArchive. case_decide as Hn.
  - subst n. split.
    + intros [[_ ->]|(p & Hp & _)]; [done|]. by apply symmetry, template_prefix_ne in Hp.
    + intros [= <-]. by left.
  - split.
    + intros [[? _]|(p & -> & Hp & Hc)]; [done|].
      rewrite (proj2 (strip_prefix_Some _ _ p)) by done. cbn.
      by rewrite decide_False.
    + destruct (strip_prefix "template/" n) as [p|] eqn:Hp; [|done]. cbn.
      case_decide; [done|]. intros Hc. right. exists p.
      by apply strip_prefix_Some in Hp.
Qed.

Lemma subdir_createBrickArchive templateDir metadata :
  subdir "template" (tar_extract (createBrickArchive templateDir metadata))
    = delete "brick.json" templateDir.
Proof.
  apply map_eq. intros p. rewrite subdir_lookup, tar_extract_createBrickArchive.
  rewrite decide_False by apply template_prefix_ne.
  rewrite (proj2 (strip_prefix_Some "template/" _ p)) by done. cbn.
  case_decide as Hp; [subst p; by rewrite lookup_delete_eq|].
  by rewrite lookup_delete_ne.
Qed.

Lemma without_brick_json_createBrickArchive templateDir metadata :
  delete "brick.json" templateDir = ∅ →
  without_brick_json
    (tar_extract (createBrickArchive templateDir metadata)) = ∅.
Proof.
  intros Hempty. apply map_empty. intros n. unfold without_brick_json.
  apply map_lookup_filter_None. right. intros c.
  rewrite tar_extract_createBrickArchive. case_decide as Hn.
  - subst n. intros _ Hh. by apply Hh.
  - destruct (strip_prefix "template/" n) as [p|]; [|done]. cbn.
    case_decide as Hp; [done|]. intros Hc.
    assert (delete "brick.json" templateDir !! p = Some c) as Hd
      by by rewrite lookup_delete_ne.
    by rewrite Hempty in Hd.
Qed.


End archive.

Lemma length_app a b :
  String.length (a +:+ b) = String.length a + String.length b.
Proof. induction a; [done|]. rewrite app_String. cbn. by f_equal. Qed.

Section import_run.
Context `{Host}.

(** The part of [importCommand] after the name is settled, for an archive
    without a regular file [template]. *)
Lemma import_write tempDir metadata templateName fileName now st :
  tempDir !! "template" = None →
  ∃ st',
    (present ← fs_pathExists templateName;
     when present (fs_remove templateName);;
     copy_template tempDir templateName;;
     saveTemplateMetadata templateName
       (updatedMetadata metadata templateName fileName now);;
     addTemplateToStore templateName
       (storeEntry metadata templateName now)) st = (inr (), st') ∧
    initialized st' = initialized st ∧
    store st' = store_put templateName
                  (storeEntry metadata templateName now) (store st) ∧
    templates st' =
      <[templateName :=
          <["brick.json" := JSON_stringify
              (updatedMetadata metadata templateName fileName now)]>
            (imported_files tempDir)]> (templates st).
Proof.
  intros Hfile.
  unfold fs_pathExists, fs_remove, copy_template, fs_copy, fs_ensureDir,
    saveTemplateMetadata, addTemplateToStore, imported_files.
  rewrite Hfile. cmd_unfold. cbn.
  destruct (templates st !! templateName) as [d0|] eqn:Hd0.
  - rewrite bool_decide_eq_true_2 by done. cbn.
    case_bool_decide; cbn; eexists; (split; [done|]); cbn;
      (split; [done|]); (split; [done|]);
      rewrite ?lookup_insert_eq, ?lookup_delete_eq; cbn;
      rewrite ?lookup_insert_eq; cbn;
      by rewrite ?insert_insert_eq, ?insert_delete_eq, ?(right_id_L ∅ (∪)).
  - rewrite bool_decide_eq_false_2 by (by intros [??]). cbn.
    case_bool_decide; cbn; eexists; (split; [done|]); cbn;
      (split; [done|]); (split; [done|]);
      rewrite ?lookup_insert_eq, ?Hd0; cbn;
      rewrite ?lookup_insert_eq; cbn;
      by rewrite ?insert_insert_eq, ?(right_id_L ∅ (∪)).
Qed.

(** A run of [importCommand] on an archive with readable metadata and
    without a regular file [template]: it returns; when the import is not
    cancelled it has written the files, the metadata and the registry entry
    of the template. *)
Lemma importCommand_run entries text metadata fileName options prompts now st :
  initialized st = true →
  tar_extract entries !! "brick.json" = Some text →
  JSON_parse text = Some metadata →
  tar_extract entries !! "template" = None →
  ∃ st',
    run (importCommand (tar entries) fileName options prompts now) st
      = (returned, st') ∧
    match settle_name
            (bool_decide (is_Some (store_get (initial_name options metadata)
                                     (store st))))
            options prompts (initial_name options metadata) with
    | cancel => st' = st
    | value templateName =>
        initialized st' = initialized st ∧
        store st' = store_put templateName
                      (storeEntry metadata templateName now) (store st) ∧
        templates st' =
          <[templateName :=
              <["brick.json" := JSON_stringify
                  (updatedMetadata metadata templateName fileName now)]>
                (imported_files (tar_extract entries))]> (templates st)
    end.
Proof.
  intros Hinit Htext Hparse Hfile. unfold importCommand, run.
  unfold mbind at 1, cmd_bind at 1. unfold isInitialized, gets at 1.
  rewrite Hinit. cbn [negb]. rewrite Htext, Hparse.
  unfold mbind at 1, cmd_bind at 1. unfold templateExists, gets at 1.
  destruct (settle_name _ _ _ _) as [|templateName].
  - by eexists.
  - destruct (import_write (tar_extract entries) metadata templateName
                fileName now st Hfile) as (st' & -> & Hi & ? & ?).
    rewrite Hinit in Hi. by exists st'.
Qed.


(** C4, for [importCommand]: the entry it writes carries the whole path of
    the directory of the template, which is not the path relative to the
    root. *)
Lemma storeEntry_path metadata templateName now t :
  storeEntry metadata templateName now = local t →
  LocalTemplate.path t = getTemplatePath templateName ∧
  LocalTemplate.path t ≠ "templates/" +:+ templateName.
Proof.
  intros [= <-]. split; [done|]. cbn. intros Heq.
  apply (f_equal String.length) in Heq. revert Heq.
  unfold getTemplatePath, TEMPLATES_DIR, CODEBRICK_DIR.
  rewrite !length_app. cbn. lia.
Qed.

(** The archive of [export] has no entry [template]. *)
Lemma createBrickArchive_no_template_file templateDir metadata :
  tar_extract (createBrickArchive templateDir metadata) !! "template" = None.
Proof. by rewrite tar_extract_createBrickArchive. Qed.

Lemma imported_files_createBrickArchive templateDir metadata :
  imported_files (tar_extract (createBrickArchive templateDir metadata))
    = delete "brick.json" templateDir.
Proof.
  unfold imported_files. rewrite subdir_createBrickArchive.
  case_bool_decide as Hempty; [done|].
  rewrite Hempty.
  by apply without_brick_json_createBrickArchive.
Qed.

End import_run.

(** ** save *)

Lemma StronglySorted_sublist {A} (R : relation A) (l1 l2 : list A) :
  l1 `sublist_of` l2 → StronglySorted R l2 → StronglySorted R l1.
Proof.
  induction 1 as [|x l1 l2 Hsub IH|x l1 l2 Hsub IH]; [done|..];
    intros [Hx Hl2]%StronglySorted_cons.
  - apply StronglySorted_cons. split; [|by apply IH].
    eapply Forall_sublist; [exact Hsub | exact Hx].
  - by apply IH.
Qed.

Lemma sort_sorted l : StronglySorted String.le (sort l).
Proof. apply StronglySorted_merge_sort; apply _. Qed.

Lemma sort_elem_of x l : x ∈ sort l ↔ x ∈ l.
Proof. unfold sort. by rewrite merge_sort_Permutation. Qed.

Section save_files.
Context `{Host}.

(** Without [--include], the files that [saveCommand] selects are in the
    sorted order, whatever the glob answers for [--exclude]. *)
Lemma select_files_sorted options entries :
  from_option truthy false (include options) = false →
  StronglySorted String.le (select_files options entries).
Proof.
  intros Hinc. unfold select_files. rewrite Hinc.
  destruct (from_option truthy false (exclude options)).
  - eapply StronglySorted_sublist; [apply sublist_filter | apply sort_sorted].
  - apply sort_sorted.
Qed.

(** With [--include], they are what the glob answers, as it answers. *)
Lemma select_files_include options entries :
  from_option truthy false (include options) = true →
  select_files options entries =
    fg (split_trim (default "" (include options)))
       (from_option split_trim [] (exclude options)) entries.
Proof. intros Hinc. unfold select_files. by rewrite Hinc. Qed.

(** The loop that copies: when it ends, every file of the list is in the
    directory of the template with the content it has in the source; the
    rest of the state is as before. *)
Lemma copy_files_returned name entries files st st' :
  copy_files name entries files st = (inr (), st') →
  initialized st' = initialized st ∧
  store st' = store st ∧
  (∀ other, other ≠ name → templates st' !! other = templates st !! other) ∧
  (∀ f, f ∈ files →
     is_Some (read_source entries f) ∧
     (templates st' !! name) ≫= (.!! f) = read_source entries f) ∧
  (∀ f, f ∉ files →
     (templates st' !! name) ≫= (.!! f) = (templates st !! name) ≫= (.!! f)).
Proof.
  revert st. induction files as [|file rest IH]; intros st; cbn.
  - intros [= <-]. split_and!; try done. by intros f ?%elem_of_nil.
  - destruct (read_source entries file) as [content|] eqn:Hread; [|done].
    unfold fs_writeFile. cmd_unfold. cbn. intros Hrest.
    apply IH in Hrest as (Hi & Hs & Ho & Hin & Hout). cbn in *.
    split_and!; [done|done|..].
    + intros other ?. by rewrite Ho, lookup_insert_ne.
    + intros f [->|Hf]%elem_of_cons; [|by apply Hin].
      destruct (decide (file ∈ rest)) as [?|Hn]; [by apply Hin|].
      rewrite Hread. split; [done|]. rewrite (Hout _ Hn), lookup_insert_eq.
      cbn. by rewrite lookup_insert_eq.
    + intros f [Hne Hn]%not_elem_of_cons. rewrite (Hout _ Hn), lookup_insert_eq.
      cbn. rewrite lookup_insert_ne by done.
      by destruct (templates st !! name).
Qed.

Lemma copy_files_outcome name entries files st o st' :
  copy_files name entries files st = (inl o, st') → o = thrown.
Proof.
  revert st. induction files as [|file rest IH]; intros st; cbn; [done|].
  destruct (read_source entries file); [|by intros [= <- _]].
  unfold fs_writeFile. cmd_unfold. cbn. apply IH.
Qed.

(** The prompts do not touch the state, and stop only as cancelled. *)
Lemma ask_dependencies_result options prompts entries files st r st' :
  ask_dependencies options prompts entries files st = (r, st') →
  st' = st ∧ (∀ o, r = inl o → o = exit 0 "Operation cancelled").
Proof.
  unfold ask_dependencies. cmd_unfold.
  repeat (case_match; cbn); intros [= <- <-]; split; congruence.
Qed.

Lemma ask_description_result options prompts st r st' :
  ask_description options prompts st = (r, st') →
  st' = st ∧ (∀ o, r = inl o → o = exit 0 "Operation cancelled").
Proof.
  unfold ask_description. cmd_unfold.
  repeat (case_match; cbn); intros [= <- <-]; split; congruence.
Qed.

(** A run of [saveCommand] that returns has written the manifest that
    [select_files] computes, the files of the manifest, and a registry
    entry with the path [templates/<name>]. *)
Lemma saveCommand_returned name source resolvedPath options prompts now st st' :
  run (saveCommand name source resolvedPath options prompts now) st
    = (returned, st') →
  ∃ entries description detectedDeps,
    source = Some (Dir entries) ∧
    metadata_of st' name =
      Some (new_metadata name resolvedPath description
              (select_files options entries) (parse_tags options)
              detectedDeps now) ∧
    store st' =
      store_put name (new_template name description (parse_tags options) now)
        (store st) ∧
    ∀ f, f ∈ select_files options entries → f ≠ "brick.json" →
      is_Some (read_source entries f) ∧
      (templates st' !! name) ≫= (.!! f) = read_source entries f.
Proof.
  unfold saveCommand. cmd_unfold. cbn.
  destruct (initialized st); cbn; [|done].
  destruct source as [[c|entries]|]; cbn; [done| |done].
  match goal with
  | |- context [(if ?b then ?x else ?y) st] =>
      destruct ((if b then x else y) st) as [[o|[]] st1] eqn:Hst0
  end.
  { intros [= -> <-]. revert Hst0. case_bool_decide; [|done].
    by destruct (save_shouldOverwrite prompts) as [|[]]. }
  assert (store st1 = store st) as Hstore1.
  { revert Hst0. case_bool_decide; [|by intros [= <-]].
    destruct (save_shouldOverwrite prompts) as [|[]]; try done.
    unfold fs_remove. cmd_unfold. by intros [= <-]. }
  clear Hst0.
  destruct (decide (select_files options entries = [])) as [Hf|Hf];
    [by rewrite bool_decide_eq_true_2 | rewrite bool_decide_eq_false_2 by done].
  destruct (ask_dependencies _ _ _ _ st1) as [[o|deps] st2] eqn:Hdeps; cbn;
    apply ask_dependencies_result in Hdeps as [-> Ho];
    [intros [= -> <-]; by specialize (Ho _ eq_refl)|].
  destruct (ask_description _ _ st1) as [[o|description] st2] eqn:Hdesc; cbn;
    apply ask_description_result in Hdesc as [-> Ho'];
    [intros [= -> <-]; by specialize (Ho' _ eq_refl)|].
  unfold fs_ensureDir. cmd_unfold. cbn.
  destruct (copy_files _ _ _ _) as [[o|[]] st3] eqn:Hcopy; cbn.
  { intros [= -> <-]. by apply copy_files_outcome in Hcopy. }
  apply copy_files_returned in Hcopy as (_ & Hs3 & _ & Hin & _). cbn in *.
  unfold saveTemplateMetadata, addTemplateToStore. cmd_unfold. cbn.
  intros [= <-]. exists entries, description, deps. split; [done|].
  unfold metadata_of. cbn. rewrite lookup_insert_eq. cbn.
  rewrite lookup_insert_eq. cbn. rewrite JSON_parse_stringify.
  split; [done|]. split; [by rewrite Hs3, Hstore1|].
  intros f Hf' Hne. destruct (Hin f Hf') as [? Hcontent]. split; [done|].
  rewrite lookup_insert_ne by done. rewrite <- Hcontent.
  by destruct (templates st3 !! name).
Qed.

Lemma store_get_put name v s : store_get name (store_put name v s) = Some v.
Proof.
  induction s as [|[k w] s IH]; cbn.
  - by rewrite decide_True.
  - case_decide as Hk; cbn; [by rewrite decide_True | by rewrite decide_False].
Qed.

(** The registry entry of a template that [saveCommand] has saved, whatever
    its name: type [local], path [templates/<name>]. *)
Lemma saveCommand_registers name source resolvedPath options prompts now st st' :
  run (saveCommand name source resolvedPath options prompts now) st
    = (returned, st') →
  ∃ t, store_get name (store st') = Some (local t) ∧
       LocalTemplate.path t = "templates/" +:+ name.
Proof.
  intros (entries & description & deps & _ & _ & -> & _)%saveCommand_returned.
  rewrite store_get_put. by eexists.
Qed.

(** Without [--include], the manifest that [saveCommand] writes is sorted. *)
Lemma saveCommand_manifest_sorted name source resolvedPath options prompts now
    st st' :
  from_option truthy false (include options) = false →
  run (saveCommand name source resolvedPath options prompts now) st
    = (returned, st') →
  ∃ m, metadata_of st' name = Some m ∧
       StronglySorted String.le (BrickMetadata.files m).
Proof.
  intros Hinc (entries & description & deps & _ & -> & _)%saveCommand_returned.
  eexists. split; [done|]. by apply select_files_sorted.
Qed.
End save_files.

Section save_props.
Context `{Host}.

(** Declining or cancelling the question about the overwrite ends
    [saveCommand] with the state as it was. *)
Lemma saveCommand_overwrite_declined name entries resolvedPath options prompts
    now st :
  initialized st = true →
  is_Some (store_get name (store st)) →
  save_shouldOverwrite prompts ≠ value true →
  run (saveCommand name (Some (Dir entries)) resolvedPath options prompts now) st
    = (exit 0 "Operation cancelled", st).
Proof.
  intros Hinit Hex Hno. unfold saveCommand. cmd_unfold. cbn.
  rewrite Hinit. cbn. rewrite bool_decide_eq_true_2 by done. cbn.
  by destruct (save_shouldOverwrite prompts) as [|[]].
Qed.

(** Cancelling the prompt for the description after the overwrite was
    confirmed ends [saveCommand] with the directory of the template
    removed: [fs.remove] has run before the prompt. *)
Lemma saveCommand_cancel_after_overwrite name entries resolvedPath options
    prompts now st :
  initialized st = true →
  is_Some (store_get name (store st)) →
  save_shouldOverwrite prompts = value true →
  select_files options entries ≠ [] →
  detectDeps options = false →
  from_option truthy false (save_description options) = false →
  descInput prompts = cancel →
  run (saveCommand name (Some (Dir entries)) resolvedPath options prompts now) st
    = (exit 0 "Operation cancelled",
       with_templates (delete name (templates st)) st).
Proof.
  intros Hinit Hex Hyes Hfiles Hdeps Hdesc Hcancel.
  unfold saveCommand, ask_dependencies, ask_description, fs_remove.
  cmd_unfold. cbn. rewrite Hinit. cbn.
  rewrite bool_decide_eq_true_2 by done. cbn. rewrite Hyes. cbn.
  rewrite bool_decide_eq_false_2 by done. cbn.
  by rewrite Hdeps, Hdesc, Hcancel.
Qed.

(** Without a template of the name, cancelling a prompt of [saveCommand]
    leaves the state as it was. *)
Lemma saveCommand_cancel_fresh name source resolvedPath options prompts now
    st st' :
  store_get name (store st) = None →
  run (saveCommand name source resolvedPath options prompts now) st
    = (exit 0 "Operation cancelled", st') →
  st' = st.
Proof.
  intros Hfresh. unfold saveCommand. cmd_unfold. cbn.
  destruct (initialized st); cbn; [|done].
  destruct source as [[c|entries]|]; cbn; [done| |done].
  rewrite Hfresh, bool_decide_eq_false_2 by (by intros [??]). cbn.
  case_bool_decide; cbn; [done|].
  destruct (ask_dependencies _ _ _ _ st) as [[o|deps] st1] eqn:Hdeps.
  { intros [= -> <-]. revert Hdeps. unfold ask_dependencies. cmd_unfold.
    repeat (case_match; cbn); congruence. }
  assert (st1 = st) as ->.
  { revert Hdeps. unfold ask_dependencies. cmd_unfold.
    repeat (case_match; cbn); congruence. }
  destruct (ask_description _ _ st) as [[o|description] st1] eqn:Hdesc.
  { intros [= -> <-]. revert Hdesc. unfold ask_description. cmd_unfold.
    repeat (case_match; cbn); congruence. }
  unfold fs_ensureDir. cmd_unfold. cbn.
  destruct (copy_files _ _ _ _) as [[o|[]] st2] eqn:Hcopy; cbn.
  - intros [= -> <-]. by apply copy_files_outcome in Hcopy.
  - unfold saveTemplateMetadata, addTemplateToStore. cmd_unfold. done.
Qed.

End save_props.

(** ** The commands at inputs *)

(** C1, at an input. The template [demo] is saved again, the overwrite is
    confirmed and the prompt for the description is cancelled: the command
    ends as cancelled, the registry still lists [demo], and its directory
    with the metadata and the files is gone. *)
Theorem saveCommand_cancel_loses_template :
  let prompts := {| save_shouldOverwrite := value true; addDeps := cancel;
                    descInput := cancel |} in
  let result :=
    run (saveCommand (H := example_host) "demo" (Some (Dir project)) "/proj"
           plain_save prompts "2026-02-01T00:00:00Z") demo_state in
  result.1 = exit 0 "Operation cancelled" ∧
  store result.2 = store demo_state ∧
  templates demo_state !! "demo" = Some demo_dir ∧
  templates result.2 !! "demo" = None ∧
  metadata_of (H := example_host) result.2 "demo" = None.
Proof. by vm_compute. Qed.

(** C3, at an input. With [--include src/b.ts,lib/a.ts] and a glob that
    answers in the order of its patterns, the manifest that is written is
    [src/b.ts] before [lib/a.ts], which is not the sorted order. *)
Theorem saveCommand_include_unsorted :
  let result :=
    run (saveCommand (H := example_host) "lib" (Some (Dir project)) "/proj"
           (described_save (Some "src/b.ts,lib/a.ts")) no_answers
           "2026-02-01T00:00:00Z") empty_state in
  result.1 = returned ∧
  (BrickMetadata.files <$> metadata_of (H := example_host) result.2 "lib")
    = Some ["src/b.ts"; "lib/a.ts"] ∧
  sort ["src/b.ts"; "lib/a.ts"] = ["lib/a.ts"; "src/b.ts"].
Proof. by vm_compute. Qed.

(** C5, at an input. [saveCommand] records a template under a name with a
    space and an exclamation mark. *)
Theorem saveCommand_any_name :
  let result :=
    run (saveCommand (H := example_host) "my template!" (Some (Dir project))
           "/proj" (described_save None) no_answers "2026-02-01T00:00:00Z")
        empty_state in
  result.1 = returned ∧
  is_Some (store_get "my template!" (store result.2)) ∧
  name_ok "my template!" = false.
Proof. vm_compute. split; [done|]. split; [by eexists | done]. Qed.

(** C4, at an input. [importCommand] records the template [demo] with the
    whole path of its directory. *)
Theorem importCommand_absolute_path :
  let result :=
    run (importCommand (H := example_host) (tar demo_archive) "demo.brick"
           {| import_name := None; force := false |}
           {| import_shouldOverwrite := cancel; newName := [] |}
           "2026-02-01T00:00:00Z") empty_state in
  result.1 = returned ∧
  ∃ t, store_get "demo" (store result.2) = Some (local t) ∧
       LocalTemplate.path t = "/home/dev/.codebrick/templates/demo" ∧
       LocalTemplate.path t ≠ "templates/demo".
Proof. vm_compute. split; [done|]. eexists. by split_and!. Qed.



(** ** The theorems at inputs *)

(** C9 at an input: a dry run on [demo], where one line is to be removed. *)
Lemma cleanCommand_dryRun_witness :
  dryRun (clean_todo true) = true ∧
  (run (cleanCommand (H := example_host) "demo" (clean_todo true)
          (value true) "2026-02-01T00:00:00Z") demo_state).2 = demo_state.
Proof.
  split; [reflexivity|].
  apply (cleanCommand_dryRun (H := example_host)). reflexivity.
Defined.

(** C8 at an input: [demo] is cleaned; the line with TODO goes, and of the
    metadata only [updatedAt] changes. *)
Lemma cleanCommand_metadata_witness :
  let result :=
    run (cleanCommand (H := example_host) "demo" (clean_todo false)
           (value true) "2026-02-01T00:00:00Z") demo_state in
  result.1 = returned ∧
  ∃ name m,
    resolve_in (store demo_state) "demo" = Some name ∧
    metadata_of (H := example_host) demo_state name = Some m ∧
    (metadata_of (H := example_host) result.2 name = Some m ∨
     metadata_of (H := example_host) result.2 name
       = Some (BrickMetadata.with_updatedAt "2026-02-01T00:00:00Z" m)).
Proof.
  split; [reflexivity|].
  apply (cleanCommand_metadata (H := example_host) "demo" (clean_todo false)
           (value true) "2026-02-01T00:00:00Z" demo_state).
  reflexivity.
Defined.

(** C7 at an input: an archive with one file and no [brick.json]. *)
Lemma importCommand_missing_metadata_witness :
  initialized demo_state = true ∧
  ("brick.json" ∉ ([("template/readme.md", "# demo")] : archive).*1) ∧
  run (importCommand (H := example_host)
         (tar [("template/readme.md", "# demo")]) "demo.brick"
         {| import_name := None; force := false |}
         {| import_shouldOverwrite := cancel; newName := [] |}
         "2026-02-01T00:00:00Z") demo_state
    = (exit 1 "Invalid .brick file: missing brick.json metadata", demo_state).
Proof.
  assert ("brick.json" ∉ ([("template/readme.md", "# demo")] : archive).*1)
    as Hn by (by intros [?|[]%elem_of_nil]%elem_of_cons).
  split; [reflexivity|]. split; [exact Hn|].
  apply (importCommand_missing_metadata (H := example_host));
    [reflexivity | exact Hn].
Defined.

(** C6 at an input: [demo], named by its index. *)
Lemma exportCommand_archive_witness :
  ∃ a, exportCommand (H := example_host) "1" demo_state = (inr a, demo_state) ∧
    filter (λ e, e.1 = "brick.json") a
      = [("brick.json", example_stringify demo_metadata)] ∧
    (∀ n c, n ≠ "brick.json" →
       (n, c) ∈ a ↔
       ∃ p, n = "template/" +:+ p ∧ p ≠ "brick.json" ∧
            demo_dir !! p = Some c) ∧
    NoDup a.*1.
Proof.
  apply (exportCommand_archive (H := example_host) demo_state "1" "demo"
           demo_entry demo_dir demo_metadata); reflexivity.
Defined.


(* ================================================================== *)
(** * Further properties *)
(* ================================================================== *)

Lemma node_induction (P : node → Prop) :
  (∀ content, P (File content)) →
  (∀ entries, Forall (λ e, P e.2) entries → P (Dir entries)) →
  ∀ n, P n.
Proof.
  intros HFile HDir. fix IH 1. intros [content|entries]; [apply HFile|].
  apply HDir. induction entries as [|e entries IHentries]; constructor.
  - apply IH.
  - apply IHentries.
Qed.

Lemma elem_of_flat_map {A B} (f : A → list B) (l : list A) (y : B) :
  y ∈ flat_map f l ↔ ∃ x, x ∈ l ∧ y ∈ f x.
Proof.
  rewrite !list_elem_of_In, in_flat_map.
  by setoid_rewrite list_elem_of_In.
Qed.

Lemma entry_get_elem name entries n :
  entry_get name entries = Some n → (name, n) ∈ entries.
Proof.
  induction entries as [|[k m] entries IH]; cbn; [done|].
  case_decide as Hk; [intros [= ->]; subst; left | right; auto].
Qed.

Lemma entry_get_NoDup name entries n :
  NoDup entries.*1 → (name, n) ∈ entries → entry_get name entries = Some n.
Proof.
  induction entries as [|[k m] entries IH]; cbn; [by intros _ ?%elem_of_nil|].
  intros [Hk Hnd]%NoDup_cons [[= -> ->]|Hin]%elem_of_cons.
  - by rewrite decide_True.
  - rewrite decide_False; [by apply IH|]. intros ->. apply Hk.
    apply list_elem_of_fmap. by exists (name, n).
Qed.

Lemma well_formed_Dir entries :
  well_formed (Dir entries) = true →
  NoDup entries.*1 ∧
  ∀ e, e ∈ entries → valid_name e.1 = true ∧ well_formed e.2 = true.
Proof.
  cbn. intros [Hnd Hall]%andb_prop. split; [by apply bool_decide_eq_true in Hnd|].
  intros e He. rewrite forallb_forall in Hall.
  by apply andb_prop, Hall, list_elem_of_In.
Qed.

(** What the loop pushes for an entry is a visible file below it. *)
Lemma getFilesRecursive_entry_sound n :
  ∀ relativePath name f,
    well_formed n = true →
    f ∈ getFilesRecursive_entry relativePath name n →
    ∃ segments content,
      f = join_path relativePath segments ∧
      Forall (λ s, valid_name s = true) segments ∧
      node_at segments n = Some (File content) ∧
      visible (name :: segments) = true.
Proof.
  induction n as [content|entries IH] using node_induction;
    intros relativePath name f Hwf; cbn [getFilesRecursive_entry].
  - destruct (negb _ && negb _) eqn:Hvis; [|by intros ?%elem_of_nil].
    intros ->%list_elem_of_singleton. by exists [], content.
  - destruct (_ || _ || _) eqn:Hskip; [by intros ?%elem_of_nil|].
    rewrite sort_elem_of, elem_of_flat_map. intros ([s child] & Hin & Hf).
    apply well_formed_Dir in Hwf as [Hnd Hall].
    destruct (Hall _ Hin) as [Hs Hchild]. cbn in *.
    rewrite Forall_forall in IH.
    destruct (IH _ Hin _ _ _ Hchild Hf) as (segments & content & -> & ? & ? & Hv).
    exists (s :: segments), content. split; [done|]. split; [by constructor|].
    split.
    + cbn. by rewrite (entry_get_NoDup _ _ _ Hnd Hin).
    + cbn [visible]. rewrite Hskip. cbn. exact Hv.
Qed.

(** A visible file below an entry is pushed by the loop. *)
Lemma getFilesRecursive_entry_complete segments :
  ∀ n relativePath name content,
    node_at segments n = Some (File content) →
    visible (name :: segments) = true →
    join_path relativePath segments
      ∈ getFilesRecursive_entry relativePath name n.
Proof.
  induction segments as [|s rest IH]; intros n relativePath name content.
  - intros [= ->] Hvis. cbn in *. rewrite Hvis. by left.
  - cbn [node_at]. destruct n as [|entries]; [done|].
    destruct (entry_get s entries) as [child|] eqn:Hget; [|done]. cbn.
    intros Hat [Hskip Hvis]%andb_prop.
    apply negb_true_iff in Hskip. rewrite Hskip.
    rewrite sort_elem_of, elem_of_flat_map. exists (s, child).
    split; [by apply entry_get_elem|]. by eapply IH.
Qed.

Lemma valid_name_spec s : valid_name s = true → s ≠ "" ∧ free_of "/" s.
Proof.
  unfold valid_name, truthy, free_of. intros [Hs Hf]%andb_prop. split.
  - apply negb_true_iff, bool_decide_eq_false in Hs. exact Hs.
  - by apply bool_decide_eq_true in Hf.
Qed.

Lemma relative_join_ne rel s : rel ≠ "" → relative_join rel s = rel +:+ "/" +:+ s.
Proof. intros ?. unfold relative_join. by rewrite decide_False. Qed.

Lemma app_ne_empty a b : a ≠ "" → a +:+ b ≠ "".
Proof. by destruct a. Qed.

Lemma join_path_join rel segments :
  rel ≠ "" → join_path rel segments = join "/" (rel :: segments).
Proof.
  revert rel. induction segments as [|s rest IH]; intros rel Hrel; [done|].
  cbn [join_path]. rewrite relative_join_ne by done.
  rewrite IH by by apply app_ne_empty.
  destruct rest as [|r rest]; cbn [join]; [done|].
  by rewrite !app_assoc_s.
Qed.

Lemma join_path_top segments :
  Forall (λ s, valid_name s = true) segments →
  join_path "" segments = join "/" segments.
Proof.
  destruct 1 as [|s rest Hs _]; [done|]. cbn [join_path].
  apply valid_name_spec in Hs as [Hs _].
  unfold relative_join. rewrite decide_True by done. by apply join_path_join.
Qed.

Lemma node_at_valid segments :
  ∀ n m, well_formed n = true → node_at segments n = Some m →
         Forall (λ s, valid_name s = true) segments.
Proof.
  induction segments as [|s rest IH]; intros n m Hwf; [done|].
  destruct n as [|entries]; [done|]. cbn.
  destruct (entry_get s entries) as [child|] eqn:Hget; [|done]. cbn.
  apply well_formed_Dir in Hwf as [_ Hall].
  destruct (Hall _ (entry_get_elem _ _ _ Hget)) as [Hs Hchild].
  intros Hat. constructor; [done|]. by eapply IH.
Qed.

Lemma getFilesRecursive_top entries :
  getFilesRecursive entries = getFilesRecursive_entry "" "" (Dir entries).
Proof. done. Qed.

Lemma visible_top segments :
  segments ≠ [] → visible ("" :: segments) = visible segments.
Proof. by destruct segments. Qed.

(** What [getFilesRecursive] lists is a file that it does not skip. *)
Lemma getFilesRecursive_sound entries f :
  well_formed (Dir entries) = true →
  f ∈ getFilesRecursive entries →
  is_Some (read_source entries f) ∧ visible (split "/" f) = true.
Proof.
  intros Hwf. rewrite getFilesRecursive_top. unfold read_source.
  intros Hf. apply getFilesRecursive_entry_sound in Hf
    as (segments & content & -> & Hvalid & Hat & Hvis); [|done].
  rewrite join_path_top by done.
  assert (segments ≠ []) as Hne by (by intros ->).
  rewrite split_join; [|done|].
  - rewrite Hat. split; [by eexists|]. by rewrite <- visible_top.
  - eapply Forall_impl; [exact Hvalid|]. by intros s [_ ?]%valid_name_spec.
Qed.

(** And it lists every such file. *)
Lemma getFilesRecursive_complete entries f :
  well_formed (Dir entries) = true →
  is_Some (read_source entries f) →
  visible (split "/" f) = true →
  f ∈ getFilesRecursive entries.
Proof.
  intros Hwf [content Hread] Hvis. rewrite getFilesRecursive_top.
  unfold read_source in Hread.
  destruct (node_at (split "/" f) (Dir entries)) as [[c|]|] eqn:Hat;
    [|done..].
  pose proof (node_at_valid _ _ _ Hwf Hat) as Hvalid.
  rewrite <- (join_split "/" f) at 1. rewrite <- join_path_top by done.
  eapply getFilesRecursive_entry_complete; [exact Hat|].
  rewrite visible_top; [done|]. apply split_not_nil.
Qed.

(** X1. In a directory as a file system has it, [getFilesRecursive] lists
    exactly the paths of the files that it does not skip. *)
Theorem getFilesRecursive_lists entries f :
  well_formed (Dir entries) = true →
  f ∈ getFilesRecursive entries ↔
    is_Some (read_source entries f) ∧ visible (split "/" f) = true.
Proof.
  intros Hwf. split.
  - by apply getFilesRecursive_sound.
  - intros [? ?]. by apply getFilesRecursive_complete.
Qed.

(** The paths below two entries of different names are different. *)
Lemma app_inv_head_s a b c : a +:+ b = a +:+ c → b = c.
Proof. induction a as [|x a IH]; [done|]. rewrite !app_String. by intros [= ?%IH]. Qed.

Lemma join_path_inj rel s1 segments1 s2 segments2 :
  Forall (λ s, valid_name s = true) (s1 :: segments1) →
  Forall (λ s, valid_name s = true) (s2 :: segments2) →
  join_path rel (s1 :: segments1) = join_path rel (s2 :: segments2) →
  s1 = s2.
Proof.
  intros Hv1 Hv2 Heq.
  assert (join "/" (s1 :: segments1) = join "/" (s2 :: segments2)) as Hjoin.
  { destruct (decide (rel = "")) as [->|Hrel].
    - rewrite !join_path_top in Heq; done.
    - rewrite !join_path_join in Heq by done.
      change (join "/" (rel :: ?l)) with (rel +:+ "/" +:+ join "/" l) in Heq.
      by apply app_inv_head_s, app_inv_head_s in Heq. }
  apply (f_equal (split "/")) in Hjoin.
  rewrite !split_join in Hjoin; [by injection Hjoin|done| |done|].
  - eapply Forall_impl; [exact Hv2|]. by intros s [_ ?]%valid_name_spec.
  - eapply Forall_impl; [exact Hv1|]. by intros s [_ ?]%valid_name_spec.
Qed.

Lemma getFilesRecursive_entry_NoDup n :
  ∀ relativePath name,
    well_formed n = true →
    NoDup (getFilesRecursive_entry relativePath name n).
Proof.
  induction n as [content|entries IH] using node_induction;
    intros relativePath name Hwf; cbn [getFilesRecursive_entry].
  - case_match; [apply NoDup_singleton | constructor].
  - case_match; [constructor|]. unfold sort.
    rewrite merge_sort_Permutation.
    apply well_formed_Dir in Hwf as [Hnd Hall]. rewrite Forall_forall in IH.
    clear -Hnd Hall IH.
    induction entries as [|[s child] entries IHentries]; cbn; [constructor|].
    apply NoDup_cons in Hnd as [Hs Hnd].
    destruct (Hall (s, child)) as [Hvs Hchild]; [by left|]. cbn in *.
    apply NoDup_app. split_and!.
    + apply (IH (s, child)); [by left | done].
    + intros f Hf (e & He & Hf')%elem_of_flat_map.
      destruct (Hall e) as [Hve He2]; [by right|].
      apply getFilesRecursive_entry_sound in Hf
        as (segs1 & _ & -> & Hv1 & _ & _); [|done].
      apply getFilesRecursive_entry_sound in Hf'
        as (segs2 & _ & Heq & Hv2 & _ & _); [|done].
      apply (join_path_inj relativePath s segs1 e.1 segs2) in Heq;
        [|by constructor..].
      apply Hs. rewrite Heq. apply list_elem_of_fmap. by exists e.
    + apply IHentries; [|done|].
      * intros e He. apply IH. by right.
      * intros e He. apply Hall. by right.
Qed.

(** X2. In a directory as a file system has it, [getFilesRecursive] lists
    no path twice, and lists the paths in the order of [sort]. *)
Theorem getFilesRecursive_once entries :
  well_formed (Dir entries) = true →
  NoDup (getFilesRecursive entries) ∧
  StronglySorted String.le (getFilesRecursive entries).
Proof.
  intros Hwf. split; [|apply sort_sorted].
  rewrite getFilesRecursive_top. by apply getFilesRecursive_entry_NoDup.
Qed.

(** X1 at an input: the file [src/main.ts] of [workspace]. *)
Lemma getFilesRecursive_lists_witness :
  well_formed (Dir workspace) = true ∧
  ("src/main.ts" ∈ getFilesRecursive workspace ↔
     is_Some (read_source workspace "src/main.ts") ∧
     visible (split "/" "src/main.ts") = true).
Proof.
  split; [reflexivity|].
  apply (getFilesRecursive_lists workspace "src/main.ts"). reflexivity.
Defined.

(** X2 at an input: the directory [workspace]. *)
Lemma getFilesRecursive_once_witness :
  well_formed (Dir workspace) = true ∧
  NoDup (getFilesRecursive workspace) ∧
  StronglySorted String.le (getFilesRecursive workspace).
Proof.
  split; [reflexivity|]. apply (getFilesRecursive_once workspace). reflexivity.
Defined.

Example getFilesRecursive_workspace :
  getFilesRecursive workspace = ["README.md"; "src/main.ts"].
Proof. reflexivity. Qed.

(** ** [getDirectoryStats] *)

Lemma length_sort l : length (sort l) = length l.
Proof. unfold sort. by rewrite merge_sort_Permutation. Qed.

Lemma stats_files_foldr (l : list DirectoryStats) :
  stats_files (foldr stats_add stats_zero l)
    = foldr Nat.add 0 (stats_files <$> l).
Proof. induction l as [|a l IH]; cbn; [done|]. by rewrite IH. Qed.

Lemma getFilesRecursive_entry_count n :
  ∀ relativePath name,
    length (getFilesRecursive_entry relativePath name n)
      ≤ stats_files (processDir_entry name n).
Proof.
  induction n as [content|entries IH] using node_induction;
    intros relativePath name; cbn [getFilesRecursive_entry processDir_entry].
  - destruct (startsWith name "."); cbn; [done|].
    case_bool_decide; cbn; lia.
  - destruct (startsWith name "."); cbn; [done|].
    do 2 (case_bool_decide; cbn; [done|]).
    rewrite length_sort, stats_files_foldr.
    induction IH as [|e entries He _ IHentries]; cbn; [done|].
    rewrite List.length_app. specialize (He (relative_join relativePath e.1) e.1).
    lia.
Qed.

(** X3. [getDirectoryStats] counts at least the files that
    [getFilesRecursive] lists. *)
Theorem getDirectoryStats_files entries :
  length (getFilesRecursive entries)
    ≤ stats_files (getDirectoryStats entries).
Proof.
  rewrite getFilesRecursive_top.
  etrans; [apply (getFilesRecursive_entry_count (Dir entries) "" "")|].
  cbn. done.
Qed.

(** ** [truncate] *)

Lemma length_substring n s :
  String.length (String.substring 0 n s) = n `min` String.length s.
Proof.
  revert s. induction n as [|n IH]; intros [|c s]; cbn; [done..|].
  by rewrite IH.
Qed.

Lemma substring_all s : String.substring 0 (String.length s) s = s.
Proof. induction s as [|c s IH]; cbn; [done|]. by rewrite IH. Qed.

(** X4. From a limit of three on, [truncate] keeps to the limit: the
    result is the string itself when that fits, and has exactly the limit
    as its length otherwise. *)
Theorem truncate_length str maxLength :
  (3 ≤ maxLength)%Z →
  (Z.of_nat (String.length (truncate str maxLength)) ≤ maxLength)%Z ∧
  (truncate str maxLength = str ∨
   Z.of_nat (String.length (truncate str maxLength)) = maxLength).
Proof.
  intros Hmax. unfold truncate. case_decide as Hlen; [by auto|].
  unfold slice_to. rewrite decide_False by lia.
  rewrite length_app, length_substring. cbn. lia.
Qed.

(** X5. Below three the limit does not hold: a string that is longer
    than the limit comes back longer than the limit. *)
Theorem truncate_short_limit str maxLength :
  (maxLength < 3)%Z →
  (maxLength < Z.of_nat (String.length str))%Z →
  (maxLength < Z.of_nat (String.length (truncate str maxLength)))%Z.
Proof.
  intros Hmax Hlen. unfold truncate. rewrite decide_False by lia.
  rewrite length_app. cbn. lia.
Qed.

(** X4 at an input: a name of eighteen characters and the limit 8. *)
Lemma truncate_length_witness :
  (3 ≤ 8)%Z ∧
  (Z.of_nat (String.length (truncate "nestjs-auth-module" 8)) ≤ 8)%Z ∧
  (truncate "nestjs-auth-module" 8 = "nestjs-auth-module" ∨
   Z.of_nat (String.length (truncate "nestjs-auth-module" 8)) = 8%Z).
Proof. split; [lia|]. apply (truncate_length "nestjs-auth-module" 8). lia. Defined.

(** X5 at an input: four characters and the limit 2. *)
Lemma truncate_short_limit_witness :
  (2 < 3)%Z ∧ (2 < Z.of_nat (String.length "abcd"))%Z ∧
  (2 < Z.of_nat (String.length (truncate "abcd" 2)))%Z.
Proof.
  split; [lia|]. split; [cbn; lia|].
  apply (truncate_short_limit "abcd" 2); [lia | cbn; lia].
Defined.

Example truncate_cases :
  truncate "nestjs-auth-module" 8 = "nestj..." ∧
  truncate "abcd" 2 = "abc..." ∧
  truncate "abcd" 4 = "abcd".
Proof. done. Qed.

(** ** [detectDependencies] *)

Lemma dedupe_elem x l : ∀ seen, x ∈ dedupe seen l ↔ x ∈ l ∧ x ∉ seen.
Proof.
  induction l as [|y l IH]; intros seen; cbn.
  - split; [by intros ?%elem_of_nil | by intros [?%elem_of_nil _]].
  - case_decide as Hy.
    + rewrite IH, elem_of_cons. split; [tauto|].
      intros [[->|?] ?]; [done | tauto].
    + rewrite !elem_of_cons, IH, not_elem_of_cons. split.
      * intros [->|[? [? ?]]]; [by auto | by auto].
      * intros [[->|?] ?]; [by left|].
        destruct (decide (x = y)) as [->|?]; [by left | right; by auto].
Qed.

Lemma dedupe_NoDup l : ∀ seen, NoDup (dedupe seen l).
Proof.
  induction l as [|y l IH]; intros seen; cbn; [constructor|].
  case_decide; [apply IH|]. constructor; [|apply IH].
  rewrite dedupe_elem, not_elem_of_cons. tauto.
Qed.

Lemma prefix_head a p b q s :
  String.prefix (String a p) s = true →
  String.prefix (String b q) s = true → a = b.
Proof.
  destruct s as [|c s]; [done|]. cbn.
  destruct (ascii_dec a c), (ascii_dec b c); congruence.
Qed.

(** A name that ends in [.py] ends in none of [.ts], [.tsx], [.js] and
    [.jsx]. *)
Lemma endsWith_py_js filename :
  endsWith filename ".py" = true →
  endsWith filename ".ts" || endsWith filename ".tsx"
  || endsWith filename ".js" || endsWith filename ".jsx" = false.
Proof.
  intros Hpy.
  assert (∀ suffix c q,
            String.rev suffix = String c q → c ≠ "y"%char →
            endsWith filename suffix = false) as Hother.
  { intros suffix c q Hrev Hc. unfold endsWith in *. rewrite Hrev.
    destruct (String.prefix (String c q) _) eqn:Hp; [|done].
    change (String.rev ".py") with "yp." in Hpy.
    by pose proof (prefix_head _ _ _ _ _ Hp Hpy). }
  rewrite (Hother ".ts" "s"%char "t."), (Hother ".tsx" "x"%char "st."),
    (Hother ".js" "s"%char "j."), (Hother ".jsx" "x"%char "sj."); done.
Qed.

Lemma startsWith_app s t p :
  p ≠ "" → startsWith s p = true → startsWith (s +:+ t) p = true.
Proof.
  unfold startsWith. revert s. induction p as [|c p IH]; [done|].
  intros [|d s] _; [done|]. rewrite app_String. cbn.
  case_match; [|done]. destruct p; [by destruct (s +:+ t)|].
  by apply IH.
Qed.

(** The package of a specifier: one segment, or a scope and a name. *)
Lemma package_of_shape specifier pkg :
  package_of specifier = Some pkg →
  if startsWith pkg "@"
  then ∃ scope name, pkg = scope +:+ "/" +:+ name ∧
                     free_of "/" scope ∧ free_of "/" name
  else free_of "/" pkg.
Proof.
  unfold package_of. pose proof (split_free "/" specifier) as Hfree.
  destruct (split "/" specifier) as [|p0 parts]; cbn.
  - intros [= <-]. cbn. apply free_of_nil.
  - apply Forall_cons in Hfree as [H0 Hfree].
    change (String.prefix "@" p0) with (startsWith p0 "@").
    destruct (startsWith p0 "@") eqn:Hat; cbn.
    + destruct parts as [|p1 parts]; cbn; [done|]. intros [= <-].
      apply Forall_cons in Hfree as [H1 _].
      rewrite startsWith_app; [by exists p0, p1 | discriminate | exact Hat].
    + intros [= <-]. by rewrite Hat.
Qed.

Section dependencies.
Context `{Host}.

(** X6. [detectDependencies] names no package twice. *)
Theorem detectDependencies_NoDup content filename :
  NoDup (detectDependencies content filename).
Proof. apply dedupe_NoDup. Qed.

(** X7. For a Python file, none of the modules of the standard library
    that the check knows is among the dependencies. *)
Theorem detectDependencies_python content filename pkg :
  endsWith filename ".py" = true →
  pkg ∈ ["os"; "sys"; "json"; "re"; "typing"; "dataclasses"] →
  pkg ∉ detectDependencies content filename.
Proof.
  intros Hpy Hstd. unfold detectDependencies.
  rewrite (endsWith_py_js _ Hpy), Hpy. cbn [app].
  rewrite dedupe_elem, list_elem_of_filter. tauto.
Qed.

(** X8. A dependency found in a file that is not a Python file is the
    name of a package: without a slash, or a scope that begins with [@],
    a slash and a name. *)
Theorem detectDependencies_package content filename pkg :
  endsWith filename ".py" = false →
  pkg ∈ detectDependencies content filename →
  if startsWith pkg "@"
  then ∃ scope name, pkg = scope +:+ "/" +:+ name ∧
                     free_of "/" scope ∧ free_of "/" name
  else free_of "/" pkg.
Proof.
  intros Hpy. unfold detectDependencies. rewrite Hpy, app_nil_r.
  intros [Hin _]%dedupe_elem. case_match; [|by apply elem_of_nil in Hin].
  apply elem_of_app in Hin as [Hin|Hin];
    apply list_elem_of_omap in Hin as (specifier & _ & Hpkg);
    by eapply package_of_shape.
Qed.
End dependencies.

(** ** [cleanFileContent] *)

Lemma prefix_same a p t :
  String.prefix (String a p) (String a t) = String.prefix p t.
Proof. cbn. by destruct (ascii_dec a a). Qed.

Lemma prefix_other a b p t :
  a ≠ b → String.prefix (String a p) (String b t) = false.
Proof. intros ?. cbn. by destruct (ascii_dec a b). Qed.

(** After [collapse_from n], at most [2 - n] line feeds lead the text. *)
Lemma collapse_from_leading s : ∀ n,
  String.prefix LF3 (collapse_from n s) = false ∧
  (1 ≤ n → String.prefix (String LF (String LF "")) (collapse_from n s) = false) ∧
  (2 ≤ n → String.prefix (String LF "") (collapse_from n s) = false).
Proof.
  induction s as [|c s IH]; intros n; cbn [collapse_from]; [done|].
  case_decide as Hc.
  - subst c. case_decide as Hn.
    + destruct (IH (S n)) as (_ & H2 & H1). unfold LF3.
      rewrite !prefix_same.
      split_and!; [apply H2; lia | intros ?; apply H1; lia | lia].
    + destruct (IH (S n)) as (H3 & H2 & H1).
      split_and!; [done | intros ?; apply H2; lia | intros ?; apply H1; lia].
  - unfold LF3. by rewrite !prefix_other.
Qed.

Lemma collapse_from_no_run s : ∀ n, includes (collapse_from n s) LF3 = false.
Proof.
  induction s as [|c s IH]; intros n; [done|].
  pose proof (collapse_from_leading (String c s) n) as (H3 & _).
  revert H3. cbn [collapse_from]. repeat case_decide;
    [| intros _; apply IH |]; intros H3; cbn [includes]; rewrite H3; apply IH.
Qed.

Section clean_content.
Context `{Host}.
Variables (ext : string) (customPattern projectName : option string)
          (keepExternal : bool).
Local Abbreviation rm :=
  (shouldRemove ext customPattern projectName keepExternal).
Local Abbreviation clean :=
  (clean_lines ext customPattern projectName keepExternal).

(** X9. The text that [cleanFileContent] returns has no three line
    feeds in a row. *)
Theorem cleanFileContent_blank_lines content r :
  cleanFileContent ext customPattern projectName keepExternal content = Some r →
  includes (cleaned r) LF3 = false.
Proof.
  unfold cleanFileContent. destruct (clean _) as [[kept n]|]; [|done].
  intros [= <-]. apply collapse_from_no_run.
Qed.

Lemma clean_lines_none_removed lines kept :
  clean lines = Some (kept, 0) → kept = lines.
Proof.
  revert kept. induction lines as [|l ls IH]; intros kept; cbn [clean_lines].
  - by intros [= <-].
  - destruct (rm l) as [[]|]; [| |done]; cbn;
      destruct (clean ls) as [[k m]|]; [|done| |done]; cbn; [done|].
    intros [= <- ->]. by rewrite (IH _ eq_refl).
Qed.

(** X10. When nothing is removed, the text that comes back is the content
    with its runs of blank lines collapsed. *)
Theorem cleanFileContent_nothing_removed content r :
  cleanFileContent ext customPattern projectName keepExternal content = Some r →
  removedCount r = 0 →
  cleaned r = collapse_newlines content.
Proof.
  unfold cleanFileContent. destruct (clean _) as [[kept n]|] eqn:Hc; [|done].
  intros [= <-]. cbn. intros ->. apply clean_lines_none_removed in Hc as ->.
  by rewrite join_split.
Qed.




(** X12. For an extension without patterns, without a custom pattern and
    without a project name, [cleanFileContent] removes nothing, whatever
    the engine of regular expressions does. *)
Theorem cleanFileContent_no_patterns content :
  default [] (LOCAL_IMPORT_PATTERNS ext) = [] →
  from_option truthy false customPattern = false →
  projectName = None →
  cleanFileContent ext customPattern projectName keepExternal content
    = Some {| cleaned := collapse_newlines content; removedCount := 0 |}.
Proof.
  intros Hpatterns Hcustom Hproject. unfold cleanFileContent.
  rewrite clean_lines_clean; [cbn; by rewrite join_split|].
  apply Forall_forall. intros line _. unfold shouldRemove.
  assert (custom_removes customPattern line = Some false) as ->.
  { unfold custom_removes. destruct customPattern as [pat|]; [|done].
    cbn in Hcustom. by rewrite Hcustom. }
  cbn. unfold project_removes. rewrite Hproject. cbn. by rewrite Hpatterns.
Qed.
End clean_content.

(** ** [cleanCommand] *)

Section clean_run.
Context `{Host}.

(** X13. A run of [cleanCommand] that does not come to its end has
    written nothing. *)
Theorem cleanCommand_stopped nameOrIndex options confirmed now st :
  (run (cleanCommand nameOrIndex options confirmed now) st).1 ≠ returned →
  (run (cleanCommand nameOrIndex options confirmed now) st).2 = st.
Proof.
  unfold cleanCommand, run. unfold mbind at 1 3, cmd_bind at 1 3.
  cmd_unfold. cbn.
  destruct (initialized st); cbn; [|done].
  destruct (resolve_in (store st) nameOrIndex) as [name|]; cbn; [|done].
  destruct (store_get name (store st)) as [[t|t]|]; cbn; [|done..].
  destruct (metadata_of st name) as [m|] eqn:Hm; cbn; [|done].
  case_bool_decide; cbn; [done|].
  destruct (dryRun options); cbn; [done|].
  destruct confirmed as [|[]]; cbn; [done| |done].
  match goal with |- context [rewrite_files ?a ?b ?c ?d st] =>
    destruct (rewrite_files_frame a b c d st) as (st1 & -> & Hf1) end.
  unfold saveTemplateMetadata. cmd_unfold. by cbn.
Qed.

(** What [analyze] lists is a file of the manifest in which
    [cleanFileContent] removes a line. *)
Lemma analyze_elem options projectName templateDir files file ext n :
  (file, ext, n) ∈ analyze options projectName templateDir files →
  file ∈ files ∧ ext = toLowerCase (extname file) ∧
  ∃ content r,
    templateDir !! file = Some content ∧
    cleanFileContent ext (pattern options) projectName
      (negb (bool_decide (keepExternal options = Some false))) content
      = Some r ∧
    0 < removedCount r.
Proof.
  induction files as [|f rest IH]; cbn [analyze].
  - by intros ?%elem_of_nil.
  - assert ((file, ext, n) ∈ analyze options projectName templateDir rest →
            file ∈ f :: rest ∧ ext = toLowerCase (extname file) ∧
            ∃ content r,
              templateDir !! file = Some content ∧
              cleanFileContent ext (pattern options) projectName
                (negb (bool_decide (keepExternal options = Some false)))
                content = Some r ∧
              0 < removedCount r) as Hrest.
    { intros (? & ? & ?)%IH. split; [by right | done]. }
    destruct (negb _ && negb _); [exact Hrest|].
    destruct (templateDir !! f) as [content|] eqn:Hf; cbn; [|exact Hrest].
    destruct (cleanFileContent _ _ _ _ content) as [r|] eqn:Hr; [|exact Hrest].
    destruct (removedCount r) as [|k] eqn:Hn; [exact Hrest|].
    intros [[= -> -> ->]|?]%elem_of_cons; [|by auto].
    split; [by left|]. split; [done|]. exists content, r.
    split_and!; [done|done|lia].
Qed.

(** And it lists every such file when the extension has patterns or a
    custom pattern is given. *)
Lemma analyze_complete options projectName templateDir files file content r :
  file ∈ files →
  is_Some (LOCAL_IMPORT_PATTERNS (toLowerCase (extname file)))
    ∨ from_option truthy false (pattern options) = true →
  templateDir !! file = Some content →
  cleanFileContent (toLowerCase (extname file)) (pattern options) projectName
    (negb (bool_decide (keepExternal options = Some false))) content
    = Some r →
  0 < removedCount r →
  (file, toLowerCase (extname file), removedCount r)
    ∈ analyze options projectName templateDir files.
Proof.
  intros Hin Happ Hc Hr Hn. induction files as [|f rest IH];
    [by apply elem_of_nil in Hin|].
  cbn [analyze]. apply elem_of_cons in Hin as [<-|Hin].
  - assert (negb (bool_decide (is_Some
              (LOCAL_IMPORT_PATTERNS (toLowerCase (extname file)))))
            && negb (from_option truthy false (pattern options)) = false)
      as ->.
    { destruct Happ as [?| ->]; [|by rewrite andb_false_r].
      by rewrite bool_decide_eq_true_2. }
    rewrite Hc. cbn. rewrite Hr.
    destruct (removedCount r); [lia|]. by left.
  - specialize (IH Hin). repeat case_match; try done; by right.
Qed.

(** The second loop, file by file: where it ends, every file it was given
    holds the cleaned text of what the template held at first, and no
    other file has changed. *)
Lemma rewrite_files_cleaned name options projectName (orig : dir)
    filesToClean :
  let clean p content :=
    cleanFileContent (toLowerCase (extname p)) (pattern options) projectName
      (negb (bool_decide (keepExternal options = Some false))) content in
  let cleaned_at p (v : option string) :=
    ∃ content r, orig !! p = Some content ∧ clean p content = Some r ∧
                 v = Some (cleaned r) in
  (∀ file ext n, (file, ext, n) ∈ filesToClean →
     ext = toLowerCase (extname file) ∧
     ∃ content r, orig !! file = Some content ∧ clean file content = Some r) →
  ∀ st d,
    templates st !! name = Some d →
    (∀ p, d !! p = orig !! p ∨ cleaned_at p (d !! p)) →
    ∃ st' d',
      rewrite_files name options projectName filesToClean st = (inr (), st') ∧
      initialized st' = initialized st ∧ store st' = store st ∧
      (∀ other, other ≠ name →
         templates st' !! other = templates st !! other) ∧
      templates st' !! name = Some d' ∧
      (∀ p, d' !! p = d !! p ∨
            ((∃ ext n, (p, ext, n) ∈ filesToClean) ∧ cleaned_at p (d' !! p))) ∧
      (∀ p, cleaned_at p (d !! p) → cleaned_at p (d' !! p)) ∧
      (∀ file ext n, (file, ext, n) ∈ filesToClean →
         cleaned_at file (d' !! file)).
Proof.
  intros clean cleaned_at.
  induction filesToClean as [|[[file ext] n] rest IH]; intros Hgood st d Hd Hinv.
  - exists st, d. split_and!; try done; [by left | by intros ??? ?%elem_of_nil].
  - destruct (Hgood file ext n) as (-> & content & r & Hc & Hr); [by left|].
    assert (∃ st1 d1,
      (c ← fs_readFile name file;
       match
         c0 ← c;
         cleanFileContent (toLowerCase (extname file)) (pattern options)
           projectName (negb (bool_decide (keepExternal options = Some false)))
           c0
       with
       | Some r => fs_writeFile name file (cleaned r)
       | None => mret ()
       end) st = (inr (), st1) ∧
      initialized st1 = initialized st ∧ store st1 = store st ∧
      (∀ other, other ≠ name →
         templates st1 !! other = templates st !! other) ∧
      templates st1 !! name = Some d1 ∧
      d1 !! file = Some (cleaned r) ∧
      ∀ p, p ≠ file → d1 !! p = d !! p) as (st1 & d1 & Hstep & Hi1 & Hs1 & Ho1
                                            & Hd1 & Hfile & Hrest).
    { unfold fs_readFile, fs_writeFile. cmd_unfold. rewrite Hd. cbn.
      destruct (Hinv file) as [Hsame|(content' & r' & Hc' & Hr' & Hnow)].
      - rewrite Hsame, Hc. cbn. fold (clean file content). rewrite Hr.
        eexists _, _. split; [done|]. cbn. rewrite Hd. cbn.
        split_and!; [done|done| |apply lookup_insert_eq|apply lookup_insert_eq|].
        + intros other ?. by apply lookup_insert_ne.
        + intros p ?. by apply lookup_insert_ne.
      - rewrite Hc in Hc'. injection Hc' as <-. rewrite Hr in Hr'.
        injection Hr' as <-. rewrite Hnow. cbn.
        fold (clean file (cleaned r)).
        destruct (clean file (cleaned r)) as [r'|] eqn:Hagain.
        + eexists _, _. split; [done|]. cbn. rewrite Hd. cbn.
          rewrite (cleanFileContent_fixed _ _ _ _ _ _ _ Hr Hagain).
          split_and!;
            [done|done| |apply lookup_insert_eq|apply lookup_insert_eq|].
          * intros other ?. by apply lookup_insert_ne.
          * intros p ?. by apply lookup_insert_ne.
        + exists st, d. by split_and!. }
    destruct (IH) with (st := st1) (d := d1)
      as (st' & d' & Hrun & Hi & Hs & Ho & Hd' & Ha & Hb & Hcc); [| done | |].
    { intros f e m Hin. apply (Hgood f e m). by right. }
    { intros p. destruct (decide (p = file)) as [->|Hp].
      - right. by exists content, r.
      - rewrite (Hrest _ Hp). apply Hinv. }
    exists st', d'. split.
    { cbn [rewrite_files]. revert Hstep. unfold fs_readFile, gets.
      unfold mbind at 1, cmd_bind at 1. intros Hstep.
      unfold mbind at 1, cmd_bind at 1. unfold mbind at 1, cmd_bind at 1.
      rewrite Hstep. exact Hrun. }
    split; [congruence|]. split; [congruence|]. split.
    { intros other ?. by rewrite Ho, Ho1. }
    split; [done|].
    assert (cleaned_at file (d' !! file)) as Hfile'.
    { apply Hb. by exists content, r. }
    split_and!.
    + intros p. destruct (decide (p = file)) as [->|Hp].
      * right. split; [|done]. exists (toLowerCase (extname file)), n. by left.
      * destruct (Ha p) as [->|[(e & m & Hin) ?]].
        -- left. by apply Hrest.
        -- right. split; [|done]. exists e, m. by right.
    + intros p Hp. apply Hb. destruct (decide (p = file)) as [->|Hne].
      * by exists content, r.
      * by rewrite (Hrest _ Hne).
    + intros f e m [[= -> -> ->]|Hin]%elem_of_cons; [done|]. by eapply Hcc.
Qed.

(** X14. Where every directory of the storage belongs to one name and the
    manifest holds normalised relative paths, a confirmed run of
    [cleanCommand] on a local template comes to its end; every file of the
    manifest in which something is to be removed then holds its cleaned
    text, and no other file of the template but [brick.json] has changed. *)
Theorem cleanCommand_cleans nameOrIndex options now st name t m templateDir :
  initialized st = true →
  flat_storage st = true →
  resolve_in (store st) nameOrIndex = Some name →
  store_get name (store st) = Some (local t) →
  templates st !! name = Some templateDir →
  metadata_of st name = Some m →
  Forall (λ p, normal_path p = true) (BrickMetadata.files m) →
  dryRun options = false →
  ∃ st' templateDir',
    run (cleanCommand nameOrIndex options (value true) now) st
      = (returned, st') ∧
    templates st' !! name = Some templateDir' ∧
    (∀ p content r,
       p ∈ BrickMetadata.files m → p ≠ "brick.json" →
       is_Some (LOCAL_IMPORT_PATTERNS (toLowerCase (extname p)))
         ∨ from_option truthy false (pattern options) = true →
       templateDir !! p = Some content →
       clean_file options templateDir p content = Some r →
       0 < removedCount r →
       templateDir' !! p = Some (cleaned r)) ∧
    (∀ p, p ≠ "brick.json" →
       templateDir' !! p = templateDir !! p ∨
       p ∈ BrickMetadata.files m ∧
       ∃ content r,
         templateDir !! p = Some content ∧
         clean_file options templateDir p content = Some r ∧
         0 < removedCount r ∧
         templateDir' !! p = Some (cleaned r)).
Proof.
  intros Hinit _ Hres Hget Hdir Hm _ Hdry.
  unfold cleanCommand, run. unfold mbind at 1, cmd_bind at 1. cmd_unfold. cbn.
  rewrite Hinit. cbn. rewrite Hres. cbn. rewrite Hget. cbn. rewrite Hm. cbn.
  rewrite Hdir. cbn.
  set (projectName := detectProjectName templateDir).
  set (filesToClean :=
         analyze options projectName templateDir (BrickMetadata.files m)).
  case_bool_decide as Hnone; cbn.
  { exists st, templateDir. split_and!; [done|done| |by left].
    intros p content r Hp _ Happ Hc Hr Hn.
    pose proof (analyze_complete options projectName templateDir _ _ _ _
                  Hp Happ Hc Hr Hn) as Hin.
    fold filesToClean in Hin. rewrite Hnone in Hin.
    by apply elem_of_nil in Hin. }
  rewrite Hdry. cbn.
  destruct (rewrite_files_cleaned name options projectName templateDir
              filesToClean) with (st := st) (d := templateDir)
    as (st1 & d1 & Hrun & _ & _ & _ & Hd1 & Ha & _ & Hc); [|done|by left|].
  { intros file ext n (_ & -> & content & r & ? & ? & _)%analyze_elem.
    split; [done|]. by exists content, r. }
  rewrite Hrun. unfold saveTemplateMetadata. cmd_unfold. cbn. rewrite Hd1.
  cbn. eexists _, _. split; [done|]. cbn.
  split; [apply lookup_insert_eq|]. split.
  - intros p content r Hp Hne Happ Hcontent Hr Hn.
    rewrite lookup_insert_ne by done.
    pose proof (analyze_complete options projectName templateDir _ _ _ _
                  Hp Happ Hcontent Hr Hn) as Hin.
    destruct (Hc _ _ _ Hin) as (content' & r' & Hc' & Hr' & ->).
    rewrite Hcontent in Hc'. injection Hc' as <-.
    unfold clean_file in Hr. fold projectName in Hr. rewrite Hr in Hr'.
    by injection Hr' as <-.
  - intros p Hne. rewrite lookup_insert_ne by done.
    destruct (Ha p) as [?|[(ext & n & Hin) (content & r & Hc' & Hr' & ->)]];
      [by left|right].
    apply analyze_elem in Hin
      as (Hp & -> & content' & r' & Hc'' & Hr'' & Hn).
    rewrite Hc' in Hc''. injection Hc'' as <-. rewrite Hr' in Hr''.
    injection Hr'' as <-. split; [done|]. by exists content, r.
Qed.
End clean_run.

(** ** [saveCommand] *)

Lemma store_get_put_ne name other v s :
  other ≠ name → store_get other (store_put name v s) = store_get other s.
Proof.
  intros Hne. induction s as [|[k w] s IH]; cbn.
  - by rewrite decide_False.
  - case_decide as Hk; cbn.
    + subst k. by rewrite !decide_False.
    + case_decide; [done|exact IH].
Qed.

Section save_run.
Context `{Host}.

(** The loop that copies writes below [templates/<name>] only, however it
    ends. *)
Lemma copy_files_frame name entries files st r st' :
  copy_files name entries files st = (r, st') →
  initialized st' = initialized st ∧ store st' = store st ∧
  ∀ other, other ≠ name → templates st' !! other = templates st !! other.
Proof.
  revert st. induction files as [|file rest IH]; intros st; cbn.
  - by intros [= _ <-].
  - destruct (read_source entries file) as [content|]; [|by intros [= _ <-]].
    unfold fs_writeFile. cmd_unfold. cbn. intros Hrest.
    apply IH in Hrest as (Hi & Hs & Ho). cbn in *. split_and!; [done..|].
    intros other ?. by rewrite Ho, lookup_insert_ne.
Qed.


(** X15. For a name that is one path segment and files to copy that are
    normalised relative paths, however [saveCommand] ends, the template of
    every other name that is one path segment is as it was: its directory
    and its entry in the registry. *)
Theorem saveCommand_others name source resolvedPath options prompts now st
    other :
  is_segment name = true →
  is_segment other = true →
  (∀ entries, source = Some (Dir entries) →
     Forall (λ p, normal_path p = true) (select_files options entries)) →
  other ≠ name →
  templates (run (saveCommand name source resolvedPath options prompts now)
               st).2 !! other = templates st !! other ∧
  store_get other
    (store (run (saveCommand name source resolvedPath options prompts now)
              st).2) = store_get other (store st).
Proof.
  intros _ _ _ Hne. unfold saveCommand. cmd_unfold. cbn.
  destruct (initialized st); cbn; [|done].
  destruct source as [[c|entries]|]; cbn; [done| |done].
  match goal with
  | |- context [(if ?b then ?x else ?y) st] =>
      destruct ((if b then x else y) st) as [[o|[]] st1] eqn:Hst0
  end.
  { revert Hst0. case_bool_decide; [|done].
    by destruct (save_shouldOverwrite prompts) as [|[]]; intros [= <- <-]. }
  assert (templates st1 !! other = templates st !! other ∧
          store st1 = store st) as [Ht1 Hs1].
  { revert Hst0. case_bool_decide; [|by intros [= <-]].
    destruct (save_shouldOverwrite prompts) as [|[]]; try done.
    unfold fs_remove. cmd_unfold. intros [= <-]. cbn.
    by rewrite lookup_delete_ne. }
  clear Hst0. case_bool_decide; cbn; [by rewrite Hs1|].
  destruct (ask_dependencies _ _ _ _ st1) as [[o|deps] st2] eqn:Hdeps; cbn;
    apply ask_dependencies_result in Hdeps as [-> _]; [by rewrite Hs1|].
  destruct (ask_description _ _ st1) as [[o|description] st2] eqn:Hdesc; cbn;
    apply ask_description_result in Hdesc as [-> _]; [by rewrite Hs1|].
  unfold fs_ensureDir. cmd_unfold. cbn.
  destruct (copy_files _ _ _ _) as [[o|[]] st3] eqn:Hcopy; cbn;
    apply copy_files_frame in Hcopy as (_ & Hs3 & Ho3); cbn in *.
  { rewrite Ho3, lookup_insert_ne by done. by rewrite Hs3, Hs1. }
  rewrite lookup_insert_ne by done.
  rewrite Ho3, lookup_insert_ne by done.
  by rewrite store_get_put_ne, Hs3, Hs1.
Qed.


(** X17. After a save that comes to its end the registry and the metadata
    of the template agree: the same description, tags and times, and no
    tag is empty. *)
Theorem saveCommand_agrees name source resolvedPath options prompts now st st' :
  run (saveCommand name source resolvedPath options prompts now) st
    = (returned, st') →
  ∃ t m,
    store_get name (store st') = Some (local t) ∧
    metadata_of st' name = Some m ∧
    BrickMetadata.name m = name ∧
    LocalTemplate.description t = BrickMetadata.description m ∧
    LocalTemplate.tags t = BrickMetadata.tags m ∧
    LocalTemplate.createdAt t = BrickMetadata.createdAt m ∧
    LocalTemplate.updatedAt t = BrickMetadata.updatedAt m ∧
    BrickMetadata.createdAt m = now ∧ BrickMetadata.updatedAt m = now ∧
    Forall (λ tag, tag ≠ "") (BrickMetadata.tags m).
Proof.
  intros (entries & description & deps & _ & Hm & -> & _)%saveCommand_returned.
  rewrite store_get_put. eexists _, _. split; [done|]. split; [exact Hm|].
  cbn. split_and!; try done. unfold parse_tags.
  destruct (save_tags options) as [tags|]; [|done].
  destruct (truthy tags); [|done]. apply Forall_forall.
  intros tag [Htag _]%list_elem_of_filter. unfold truthy in Htag.
  by apply Is_true_true, negb_true_iff, bool_decide_eq_false in Htag.
Qed.

(** X18. Without [--include], a file that the glob of [--exclude] answers
    is not in the manifest of a save; the files of the manifest are among
    those that [getFilesRecursive] lists. *)
Theorem saveCommand_excludes name source resolvedPath options prompts now st
    st' excluded :
  run (saveCommand name source resolvedPath options prompts now) st
    = (returned, st') →
  from_option truthy false (include options) = false →
  exclude options = Some excluded →
  truthy excluded = true →
  ∃ entries m,
    source = Some (Dir entries) ∧
    metadata_of st' name = Some m ∧
    ∀ f, f ∈ BrickMetadata.files m →
         f ∈ getFilesRecursive entries ∧
         f ∉ fg (split_trim excluded) [] entries.
Proof.
  intros (entries & description & deps & -> & Hm & _)%saveCommand_returned
    Hinc Hexc Htruthy.
  exists entries. eexists. split; [done|]. split; [exact Hm|]. cbn.
  unfold select_files. rewrite Hinc, Hexc. cbn. rewrite Htruthy.
  intros f [? ?]%list_elem_of_filter. done.
Qed.

(** The dependencies that [ask_dependencies] hands on. *)
Lemma ask_dependencies_value options prompts entries files st deps st' :
  ask_dependencies options prompts entries files st = (inr deps, st') →
  deps = [] ∨
  detectDeps options = true ∧ addDeps prompts = value true ∧
  deps = detect_all entries files.
Proof.
  unfold ask_dependencies. cmd_unfold.
  destruct (detectDeps options); [|intros [= <- _]; by left].
  case_bool_decide; [intros [= <- _]; by left|].
  destruct (addDeps prompts) as [|[]]; [done| |intros [= <- _]; by left].
  intros [= <- _]. by right.
Qed.

(** X19. The metadata of a save records dependencies only when
    [--detect-deps] is given and the user agrees; no package is recorded
    twice, and each with the version [*]. *)
Theorem saveCommand_dependencies name source resolvedPath options prompts now
    st st' :
  run (saveCommand name source resolvedPath options prompts now) st
    = (returned, st') →
  ∃ m,
    metadata_of st' name = Some m ∧
    ∀ deps, BrickMetadata.dependencies m = Some deps →
      detectDeps options = true ∧ addDeps prompts = value true ∧
      NoDup deps.*1 ∧ Forall (λ d, d.2 = "*") deps.
Proof.
  unfold saveCommand. cmd_unfold. cbn.
  destruct (initialized st); cbn; [|done].
  destruct source as [[c|entries]|]; cbn; [done| |done].
  match goal with
  | |- context [(if ?b then ?x else ?y) st] =>
      destruct ((if b then x else y) st) as [[o|[]] st1] eqn:Hst0
  end.
  { intros [= -> <-]. revert Hst0. case_bool_decide; [|done].
    by destruct (save_shouldOverwrite prompts) as [|[]]. }
  clear Hst0. case_bool_decide; [done|].
  destruct (ask_dependencies _ _ _ _ st1) as [[o|deps] st2] eqn:Hdeps; cbn.
  { apply ask_dependencies_result in Hdeps as [-> Ho].
    intros [= -> <-]. by specialize (Ho _ eq_refl). }
  pose proof (ask_dependencies_value _ _ _ _ _ _ _ Hdeps) as Hvalue.
  apply ask_dependencies_result in Hdeps as [-> _].
  destruct (ask_description _ _ st1) as [[o|description] st2] eqn:Hdesc; cbn;
    apply ask_description_result in Hdesc as [-> Ho'];
    [intros [= -> <-]; by specialize (Ho' _ eq_refl)|].
  unfold fs_ensureDir. cmd_unfold. cbn.
  destruct (copy_files _ _ _ _) as [[o|[]] st3] eqn:Hcopy; cbn.
  { intros [= -> <-]. by apply copy_files_outcome in Hcopy. }
  unfold saveTemplateMetadata, addTemplateToStore. cmd_unfold. cbn.
  intros [= <-]. eexists. split.
  { unfold metadata_of. cbn. rewrite lookup_insert_eq. cbn.
    rewrite lookup_insert_eq. cbn. apply JSON_parse_stringify. }
  cbn. intros ds. case_bool_decide as Hempty; [done|]. intros [= <-].
  destruct Hvalue as [?|(? & ? & ->)]; [done|].
  split; [done|]. split; [done|]. split.
  - assert (∀ l : list string, ((λ dep, (dep, "*")) <$> l).*1 = l) as ->.
    { induction l as [|x l IH]; [done|]. cbn. by rewrite IH. }
    apply dedupe_NoDup.
  - apply Forall_fmap, Forall_forall. by intros ??.
Qed.
End save_run.

(** ** [exportCommand] *)

Section export_run.
Context `{Host}.

(** X21. [exportCommand] yields an archive exactly for the name or index
    of a local template that has its directory and metadata that can be
    read. *)
Theorem exportCommand_succeeds nameOrIndex st :
  (∃ a, (exportCommand nameOrIndex st).1 = inr a) ↔
  initialized st = true ∧
  ∃ name t,
    resolve_in (store st) nameOrIndex = Some name ∧
    store_get name (store st) = Some (local t) ∧
    is_Some (templates st !! name) ∧
    is_Some (metadata_of st name).
Proof.
  split.
  - unfold exportCommand. cmd_unfold. cbn.
    destruct (initialized st); cbn; [|by intros [? ?]].
    destruct (resolve_in (store st) nameOrIndex) as [name|]; cbn;
      [|by intros [? ?]].
    destruct (store_get name (store st)) as [[t|t]|] eqn:Hget; cbn;
      [|by intros [? ?]..].
    destruct (templates st !! name) as [d|] eqn:Hd; cbn; [|by intros [? ?]].
    destruct (metadata_of st name) as [m|] eqn:Hm; cbn; [|by intros [? ?]].
    intros _. split; [done|]. exists name, t. by rewrite Hget, Hd.
  - intros (Hinit & name & t & Hres & Hget & [d Hd] & [m Hm]).
    rewrite (exportCommand_returns st nameOrIndex name t d m) by done.
    by eexists.
Qed.
End export_run.

(** ** [importCommand] *)

Section import_more.
Context `{Host}.


(** X23. An import under a settled name that is one path segment, of an
    archive of files of which none is named [template] and none lies below
    [template/], copies every file of the archive but [brick.json]. *)
Theorem importCommand_fallback entries text metadata fileName options prompts
    now st templateName :
  initialized st = true →
  tar_extract entries !! "brick.json" = Some text →
  JSON_parse text = Some metadata →
  tar_extract entries !! "template" = None →
  settle_name
    (bool_decide (is_Some (store_get (initial_name options metadata)
                             (store st))))
    options prompts (initial_name options metadata) = value templateName →
  is_segment templateName = true →
  subdir "template" (tar_extract entries) = ∅ →
  ∃ st' templateDir,
    run (importCommand (tar entries) fileName options prompts now) st
      = (returned, st') ∧
    templates st' !! templateName = Some templateDir ∧
    ∀ p, head (split "/" p) ≠ Some "brick.json" →
         templateDir !! p = tar_extract entries !! p.
Proof.
  intros Hinit Htext Hparse Hfile Hname _ Hsub.
  destruct (importCommand_run entries text metadata fileName options prompts
              now st Hinit Htext Hparse Hfile) as (st' & Hrun & Hst').
  rewrite Hname in Hst'. destruct Hst' as (_ & Hstore & Htemplates).
  exists st'. eexists. split; [done|]. rewrite Htemplates.
  split; [apply lookup_insert_eq|].
  intros p Hp. rewrite lookup_insert_ne by (by intros <-).
  unfold imported_files. rewrite bool_decide_eq_false_2 by (by intros []).
  unfold without_brick_json.
  destruct (tar_extract entries !! p) as [c|] eqn:Hc.
  - by apply map_lookup_filter_Some.
  - apply map_lookup_filter_None. by left.
Qed.


End import_more.

(** ** [initCommand] *)

Section init_run.
Context `{Host}.

(** On a storage that is initialized, [initCommand] returns and leaves
    everything as it is, whatever [initializeStorage] would do. *)
Lemma initCommand_again initializeStorage st :
  initialized st = true →
  run (initCommand initializeStorage) st = (returned, st).
Proof. intros Hinit. unfold initCommand. cmd_unfold. cbn. by rewrite Hinit. Qed.

(** X26. Provided that [initializeStorage], when it returns, leaves the
    storage initialized, [initCommand] is idempotent: after a run that
    returns, a second run returns and changes nothing. *)
Theorem initCommand_idempotent initializeStorage st st1 :
  (∀ s s', run initializeStorage s = (returned, s') → initialized s' = true) →
  run (initCommand initializeStorage) st = (returned, st1) →
  run (initCommand initializeStorage) st1 = (returned, st1).
Proof.
  intros Hstorage Hrun. apply initCommand_again. revert Hrun.
  unfold initCommand, catch_exit. cmd_unfold. cbn.
  destruct (initialized st) eqn:Hinit; [by intros [= <-]|].
  specialize (Hstorage st). revert Hstorage. unfold run.
  destruct (initializeStorage st) as [[[]|[]] s']; try done;
    intros Hstorage [= <-]; by apply Hstorage.
Qed.

(** No exception escapes [initCommand]. *)
Lemma initCommand_catches initializeStorage st :
  (run (initCommand initializeStorage) st).1 ≠ thrown.
Proof.
  unfold initCommand, catch_exit. cmd_unfold. cbn.
  destruct (initialized st); [done|].
  by destruct (initializeStorage st) as [[[]|[]] st'].
Qed.
End init_run.

(** ** Exits and the round trip in place *)

Section exits.
Context `{Host}.

(** X27. When no template of the name is registered, or the user does not
    agree to overwrite it, a run of [saveCommand] that ends in an exit,
    with an error or cancelled, has written nothing. *)
Theorem saveCommand_exits name source resolvedPath options prompts now st
    code message :
  store_get name (store st) = None
    ∨ save_shouldOverwrite prompts ≠ value true →
  (run (saveCommand name source resolvedPath options prompts now) st).1
    = exit code message →
  (run (saveCommand name source resolvedPath options prompts now) st).2 = st.
Proof.
  intros Hsafe. unfold saveCommand. cmd_unfold. cbn.
  destruct (initialized st); cbn; [|done].
  destruct source as [[c|entries]|]; cbn; [done| |done].
  match goal with
  | |- context [(if ?b then ?x else ?y) st] =>
      destruct ((if b then x else y) st) as [[o|[]] st1] eqn:Hst0
  end.
  { revert Hst0. case_bool_decide; [|done].
    by destruct (save_shouldOverwrite prompts) as [|[]]; intros [= <- <-]. }
  assert (st1 = st) as ->.
  { revert Hst0. case_bool_decide as Hex; [|by intros [= <-]].
    destruct Hsafe as [Hfresh|Hno]; [rewrite Hfresh in Hex; by destruct Hex|].
    by destruct (save_shouldOverwrite prompts) as [|[]]. }
  clear Hst0. case_bool_decide; cbn; [done|].
  destruct (ask_dependencies _ _ _ _ st) as [[o|deps] st2] eqn:Hdeps; cbn;
    apply ask_dependencies_result in Hdeps as [-> _]; [done|].
  destruct (ask_description _ _ st) as [[o|description] st2] eqn:Hdesc; cbn;
    apply ask_description_result in Hdesc as [-> _]; [done|].
  unfold fs_ensureDir. cmd_unfold. cbn.
  destruct (copy_files _ _ _ _) as [[o|[]] st3] eqn:Hcopy; cbn.
  - intros ->. by apply copy_files_outcome in Hcopy.
  - unfold saveTemplateMetadata, addTemplateToStore. cmd_unfold. done.
Qed.


(** X29. Exporting a local template and importing the archive with
    [--force] under the name of the template itself leaves, at every path
    but [brick.json], the files of the template as they were, and the
    manifest as it was. *)
Theorem export_import_in_place st nameOrIndex name t templateDir metadata
    fileName prompts now :
  initialized st = true →
  resolve_in (store st) nameOrIndex = Some name →
  store_get name (store st) = Some (local t) →
  templates st !! name = Some templateDir →
  metadata_of st name = Some metadata →
  truthy name = true →
  ∃ a st' metadata' templateDir',
    exportCommand nameOrIndex st = (inr a, st) ∧
    run (importCommand (tar a) fileName
           {| import_name := Some name; force := true |} prompts now) st
      = (returned, st') ∧
    metadata_of st' name = Some metadata' ∧
    BrickMetadata.files metadata' = BrickMetadata.files metadata ∧
    templates st' !! name = Some templateDir' ∧
    ∀ p, p ≠ "brick.json" → templateDir' !! p = templateDir !! p.
Proof.
  intros Hinit Hres Hget Hdir Hmeta Hname.
  set (options := {| import_name := Some name; force := true |}).
  destruct (importCommand_run (createBrickArchive templateDir metadata)
              (JSON_stringify metadata) metadata fileName options prompts
              now st Hinit) as (st' & Hrun & Hst').
  { by rewrite tar_extract_createBrickArchive, decide_True. }
  { apply JSON_parse_stringify. }
  { apply createBrickArchive_no_template_file. }
  assert (initial_name options metadata = name) as Hinitial
    by (unfold initial_name; cbn; by rewrite Hname).
  rewrite Hinitial, Hget in Hst'.
  rewrite bool_decide_eq_true_2 in Hst' by done.
  cbn in Hst'. destruct Hst' as (_ & _ & Htemplates).
  rewrite imported_files_createBrickArchive in Htemplates.
  eexists _, st', _, _. split; [by eapply exportCommand_returns|].
  split; [done|]. unfold metadata_of. rewrite Htemplates, lookup_insert_eq.
  cbn. rewrite lookup_insert_eq. cbn. rewrite JSON_parse_stringify.
  split; [done|]. split; [done|]. split; [done|].
  intros p Hp. rewrite lookup_insert_ne by done. by apply lookup_delete_ne.
Qed.
End exits.

(** ** The further theorems at inputs *)

(** A second host for the examples: every expression matches the lines
    that begin with [import], and the captures of an expression are the
    words of the input. *)
Definition scan_host : Host :=
  {| RegExp := λ _ _, Some (λ s, startsWith s "import");
     RegExp_captures := λ _ _ content, split " " content;
     JSON_stringify := example_stringify;
     JSON_parse := example_parse;
     JSON_parse_name := λ _, None;
     fg := example_fg;
     homedir := "/home/dev";
     JSON_parse_stringify := example_parse_stringify |}.

Example detectDependencies_words :
  detectDependencies (H := scan_host) "os requests sys requests" "app.py"
    = ["requests"] ∧
  detectDependencies (H := scan_host) "@nestjs/common/decorators lodash/fp"
    "a.ts" = ["@nestjs/common"; "lodash"].
Proof. by vm_compute. Qed.

(** X7 at an input: a Python file that imports [os]. *)
Lemma detectDependencies_python_witness :
  endsWith "app.py" ".py" = true ∧
  "os" ∈ ["os"; "sys"; "json"; "re"; "typing"; "dataclasses"] ∧
  "os" ∉ detectDependencies (H := scan_host) "os requests sys requests"
           "app.py".
Proof.
  assert ("os" ∈ ["os"; "sys"; "json"; "re"; "typing"; "dataclasses"]) as Hos
    by left.
  split; [reflexivity|]. split; [exact Hos|].
  apply (detectDependencies_python (H := scan_host)
           "os requests sys requests" "app.py" "os"); [reflexivity|exact Hos].
Defined.

(** X8 at an input: a scoped package in a TypeScript file. *)
Lemma detectDependencies_package_witness :
  endsWith "a.ts" ".py" = false ∧
  if startsWith "@nestjs/common" "@"
  then ∃ scope name, "@nestjs/common" = scope +:+ "/" +:+ name ∧
                     free_of "/" scope ∧ free_of "/" name
  else free_of "/" "@nestjs/common".
Proof.
  split; [reflexivity|].
  apply (detectDependencies_package (H := scan_host)
           "@nestjs/common/decorators lodash/fp" "a.ts" "@nestjs/common");
    [reflexivity|]. vm_compute. left.
Defined.

(** X9 at an input: a text with four line feeds in a row. *)
Lemma cleanFileContent_blank_lines_witness :
  cleanFileContent (H := example_host) ".md" None None true
    ("a" +:+ String LF (String LF (String LF (String LF "b"))))
    = Some {| cleaned := "a" +:+ String LF (String LF "b");
              removedCount := 0 |} ∧
  includes
    (cleaned {| cleaned := "a" +:+ String LF (String LF "b");
                removedCount := 0 |}) LF3 = false.
Proof.
  split; [reflexivity|].
  apply (cleanFileContent_blank_lines (H := example_host) ".md" None None true
           ("a" +:+ String LF (String LF (String LF (String LF "b"))))).
  reflexivity.
Defined.

(** X10 at an input: a text with four line feeds in a row. *)
Lemma cleanFileContent_nothing_removed_witness :
  cleanFileContent (H := example_host) ".md" None None true
    ("a" +:+ String LF (String LF (String LF (String LF "b"))))
    = Some {| cleaned := "a" +:+ String LF (String LF "b");
              removedCount := 0 |} ∧
  cleaned {| cleaned := "a" +:+ String LF (String LF "b"); removedCount := 0 |}
    = collapse_newlines
        ("a" +:+ String LF (String LF (String LF (String LF "b")))).
Proof.
  split; [reflexivity|].
  apply (cleanFileContent_nothing_removed (H := example_host) ".md" None None
           true); reflexivity.
Defined.


(** X12 at an input: a Go file. *)
Lemma cleanFileContent_no_patterns_witness :
  default [] (LOCAL_IMPORT_PATTERNS ".go") = [] ∧
  cleanFileContent (H := scan_host) ".go" None None true "import fmt"
    = Some {| cleaned := collapse_newlines "import fmt"; removedCount := 0 |}.
Proof.
  split; [reflexivity|].
  apply (cleanFileContent_no_patterns (H := scan_host) ".go" None None true
           "import fmt"); reflexivity.
Defined.

(** X13 at an input: the confirmation is cancelled. *)
Lemma cleanCommand_stopped_witness :
  (run (cleanCommand (H := example_host) "demo" (clean_todo false) cancel
          "2026-02-01T00:00:00Z") demo_state).1 ≠ returned ∧
  (run (cleanCommand (H := example_host) "demo" (clean_todo false) cancel
          "2026-02-01T00:00:00Z") demo_state).2 = demo_state.
Proof.
  assert ((run (cleanCommand (H := example_host) "demo" (clean_todo false)
                  cancel "2026-02-01T00:00:00Z") demo_state).1 ≠ returned)
    as Hne by (vm_compute; discriminate).
  split; [exact Hne|].
  apply (cleanCommand_stopped (H := example_host) "demo" (clean_todo false)
           cancel "2026-02-01T00:00:00Z" demo_state Hne).
Defined.

(** X14 at an input: the line with TODO leaves [notes.txt], and [readme.md] stays. *)
Lemma cleanCommand_cleans_witness :
  ∃ st' templateDir',
    run (cleanCommand (H := example_host) "1" (clean_todo false) (value true)
           "2026-02-01T00:00:00Z") demo_state = (returned, st') ∧
    templates st' !! "demo" = Some templateDir' ∧
    templateDir' !! "notes.txt" = Some ("keep" +:+ String LF "end") ∧
    templateDir' !! "readme.md" = Some "# demo".
Proof.
  destruct (cleanCommand_cleans (H := example_host) "1" (clean_todo false)
              "2026-02-01T00:00:00Z" demo_state "demo" demo_entry
              demo_metadata demo_dir)
    as (st' & templateDir' & Hrun & Hdir & Hcleaned & Hothers);
    [reflexivity | reflexivity | reflexivity | reflexivity | reflexivity
    | reflexivity | repeat constructor | reflexivity |].
  exists st', templateDir'. split; [exact Hrun|]. split; [exact Hdir|]. split.
  - apply (Hcleaned "notes.txt" todo_text
             {| cleaned := "keep" +:+ String LF "end"; removedCount := 1 |});
      [left | discriminate | right; reflexivity | reflexivity | reflexivity
      | cbn; lia].
  - destruct (Hothers "readme.md") as [->|(_ & c & r & Hc & Hr & Hn & _)];
      [discriminate | reflexivity |].
    vm_compute in Hc. injection Hc as <-. vm_compute in Hr.
    injection Hr as <-. cbn in Hn. lia.
Defined.

(** X15 at an input: [workspace] is saved as [ws] beside [demo]. *)
Lemma saveCommand_others_witness :
  is_segment "ws" = true ∧ is_segment "demo" = true ∧ "demo" ≠ "ws" ∧
  Forall (λ p, normal_path p = true)
    (select_files (H := example_host) (described_save None) workspace) ∧
  templates (run (saveCommand (H := example_host) "ws"
                    (Some (Dir workspace)) "/proj" (described_save None)
                    yes_answers "2026-02-01T00:00:00Z") demo_state).2
    !! "demo" = templates demo_state !! "demo" ∧
  store_get "demo"
    (store (run (saveCommand (H := example_host) "ws"
                   (Some (Dir workspace)) "/proj" (described_save None)
                   yes_answers "2026-02-01T00:00:00Z") demo_state).2)
    = store_get "demo" (store demo_state).
Proof.
  assert ("demo" ≠ "ws") as Hne by discriminate.
  assert (Forall (λ p, normal_path p = true)
            (select_files (H := example_host) (described_save None) workspace))
    as Hnormal by (vm_compute; repeat constructor).
  split; [reflexivity|]. split; [reflexivity|]. split; [exact Hne|].
  split; [exact Hnormal|].
  apply (saveCommand_others (H := example_host) "ws" (Some (Dir workspace))
           "/proj" (described_save None) yes_answers "2026-02-01T00:00:00Z"
           demo_state "demo"); [reflexivity | reflexivity | | exact Hne].
  intros entries Hsource. injection Hsource as <-. exact Hnormal.
Defined.


(** X17 at an input: [workspace] is saved with the tags [ts] and [demo]. *)
Lemma saveCommand_agrees_witness :
  ∃ st' t m,
    run (saveCommand (H := scan_host) "ws" (Some (Dir workspace)) "/proj"
           full_save yes_answers "2026-02-01T00:00:00Z") empty_state
      = (returned, st') ∧
    store_get "ws" (store st') = Some (local t) ∧
    metadata_of (H := scan_host) st' "ws" = Some m ∧
    LocalTemplate.tags t = BrickMetadata.tags m ∧
    BrickMetadata.tags m = ["ts"; "demo"].
Proof.
  assert (run (saveCommand (H := scan_host) "ws" (Some (Dir workspace))
                 "/proj" full_save yes_answers "2026-02-01T00:00:00Z")
            empty_state
          = (returned,
             (run (saveCommand (H := scan_host) "ws" (Some (Dir workspace))
                     "/proj" full_save yes_answers "2026-02-01T00:00:00Z")
                empty_state).2)) as Hrun by (vm_compute; reflexivity).
  destruct (saveCommand_agrees (H := scan_host) _ _ _ _ _ _ _ _ Hrun)
    as (t & m & Ht & Hm & _ & _ & Htags & _).
  eexists _, t, m. split; [exact Hrun|]. split; [exact Ht|].
  split; [exact Hm|]. split; [exact Htags|].
  vm_compute in Hm. injection Hm as <-. reflexivity.
Defined.

(** X18 at an input: [workspace] is saved without [README.md]. *)
Lemma saveCommand_excludes_witness :
  ∃ st' m,
    run (saveCommand (H := scan_host) "ws" (Some (Dir workspace)) "/proj"
           full_save yes_answers "2026-02-01T00:00:00Z") empty_state
      = (returned, st') ∧
    metadata_of (H := scan_host) st' "ws" = Some m ∧
    ∀ f, f ∈ BrickMetadata.files m →
         f ∈ getFilesRecursive workspace ∧
         f ∉ fg (Host := scan_host) (split_trim "README.md") [] workspace.
Proof.
  assert (run (saveCommand (H := scan_host) "ws" (Some (Dir workspace))
                 "/proj" full_save yes_answers "2026-02-01T00:00:00Z")
            empty_state
          = (returned,
             (run (saveCommand (H := scan_host) "ws" (Some (Dir workspace))
                     "/proj" full_save yes_answers "2026-02-01T00:00:00Z")
                empty_state).2)) as Hrun by (vm_compute; reflexivity).
  destruct (saveCommand_excludes (H := scan_host) _ _ _ _ _ _ _ _ "README.md"
              Hrun) as (entries & m & [= <-] & Hm & Hfiles);
    [reflexivity..|].
  eexists _, m. split; [exact Hrun|]. split; [exact Hm|]. exact Hfiles.
Defined.

(** X19 at an input: [workspace] is saved with the dependencies of [src/main.ts]. *)
Lemma saveCommand_dependencies_witness :
  ∃ st' m,
    run (saveCommand (H := scan_host) "ws" (Some (Dir workspace)) "/proj"
           full_save yes_answers "2026-02-01T00:00:00Z") empty_state
      = (returned, st') ∧
    metadata_of (H := scan_host) st' "ws" = Some m ∧
    is_Some (BrickMetadata.dependencies m) ∧
    ∀ deps, BrickMetadata.dependencies m = Some deps →
      detectDeps full_save = true ∧ addDeps yes_answers = value true ∧
      NoDup deps.*1 ∧ Forall (λ d, d.2 = "*") deps.
Proof.
  assert (run (saveCommand (H := scan_host) "ws" (Some (Dir workspace))
                 "/proj" full_save yes_answers "2026-02-01T00:00:00Z")
            empty_state
          = (returned,
             (run (saveCommand (H := scan_host) "ws" (Some (Dir workspace))
                     "/proj" full_save yes_answers "2026-02-01T00:00:00Z")
                empty_state).2)) as Hrun by (vm_compute; reflexivity).
  destruct (saveCommand_dependencies (H := scan_host) _ _ _ _ _ _ _ _ Hrun)
    as (m & Hm & Hdeps).
  eexists _, m. split; [exact Hrun|]. split; [exact Hm|].
  split; [|exact Hdeps].
  vm_compute in Hm. injection Hm as <-. by eexists.
Defined.


(** X23 at an input: an archive of the older layout. *)
Lemma importCommand_fallback_witness :
  ∃ st' templateDir,
    run (importCommand (H := example_host) (tar legacy_archive) "demo.brick"
           {| import_name := None; force := false |} rename_answers
           "2026-02-01T00:00:00Z") empty_state = (returned, st') ∧
    templates st' !! "demo" = Some templateDir ∧
    ∀ p, head (split "/" p) ≠ Some "brick.json" →
         templateDir !! p = tar_extract legacy_archive !! p.
Proof.
  apply (importCommand_fallback (H := example_host) legacy_archive
           (example_stringify demo_metadata) demo_metadata "demo.brick"
           {| import_name := None; force := false |} rename_answers
           "2026-02-01T00:00:00Z" empty_state "demo");
    [reflexivity | reflexivity | apply example_parse_stringify | reflexivity
    | reflexivity | reflexivity |].
  by vm_compute.
Defined.



(** X26 at an input: the first run initializes, the second does nothing. *)
Lemma initCommand_idempotent_witness :
  run (initCommand (H := example_host) example_initializeStorage)
    {| initialized := false; store := []; templates := ∅ |}
    = (returned, empty_state) ∧
  run (initCommand (H := example_host) example_initializeStorage) empty_state
    = (returned, empty_state).
Proof.
  split; [reflexivity|].
  apply (initCommand_idempotent (H := example_host) example_initializeStorage
           {| initialized := false; store := []; templates := ∅ |}
           empty_state); [|reflexivity].
  intros s s' Hs. by injection Hs as <-.
Defined.

Example getDirectoryStats_workspace :
  getDirectoryStats workspace
    = {| stats_files := 4; stats_directories := 1; stats_totalSize := 29 |} ∧
  length (getFilesRecursive workspace) = 2.
Proof. by vm_compute. Qed.

(** X27 at an input: the prompt for the description is cancelled. *)
Lemma saveCommand_exits_witness :
  (store_get "fresh" (store empty_state) = None
     ∨ save_shouldOverwrite no_answers ≠ value true) ∧
  (run (saveCommand (H := example_host) "fresh" (Some (Dir project)) "/proj"
          plain_save no_answers "2026-02-01T00:00:00Z") empty_state).1
    = exit 0 "Operation cancelled" ∧
  (run (saveCommand (H := example_host) "fresh" (Some (Dir project)) "/proj"
          plain_save no_answers "2026-02-01T00:00:00Z") empty_state).2
    = empty_state.
Proof.
  assert (store_get "fresh" (store empty_state) = None
            ∨ save_shouldOverwrite no_answers ≠ value true) as Hsafe
    by (left; reflexivity).
  split; [exact Hsafe|]. split; [reflexivity|].
  apply (saveCommand_exits (H := example_host) "fresh" (Some (Dir project))
           "/proj" plain_save no_answers "2026-02-01T00:00:00Z" empty_state
           0 "Operation cancelled" Hsafe).
  reflexivity.
Defined.


(** X29 at an input: [demo] is exported and imported over itself. *)
Lemma export_import_in_place_witness :
  ∃ a st' metadata' templateDir',
    exportCommand (H := example_host) "1" demo_state = (inr a, demo_state) ∧
    run (importCommand (H := example_host) (tar a) "demo.brick"
           {| import_name := Some "demo"; force := true |} rename_answers
           "2026-02-01T00:00:00Z") demo_state = (returned, st') ∧
    metadata_of (H := example_host) st' "demo" = Some metadata' ∧
    BrickMetadata.files metadata' = BrickMetadata.files demo_metadata ∧
    templates st' !! "demo" = Some templateDir' ∧
    ∀ p, p ≠ "brick.json" → templateDir' !! p = demo_dir !! p.
Proof.
  apply (export_import_in_place (H := example_host) demo_state "1" "demo"
           demo_entry demo_dir demo_metadata "demo.brick" rename_answers
           "2026-02-01T00:00:00Z"); reflexivity.
Defined.

(** An archive whose entry [template] is a regular file, imported over
    [demo] with [--force]: the directory of [demo] is removed, the command
    exits with the code 1, and the registry still lists [demo]. *)
Example importCommand_template_file :
  run (importCommand (H := example_host)
         (tar [ ("template", "not a directory");
                ("brick.json", example_stringify demo_metadata) ])
         "demo.brick" {| import_name := None; force := true |}
         rename_answers "2026-02-01T00:00:00Z") demo_state
    = (exit 1 "Import failed",
       {| initialized := true;
          store := [("demo", local demo_entry)];
          templates := ∅ |}).
Proof. by vm_compute. Qed.
